(** * Health risk engine ([risk_utils.py]): scoring, categorizers, report

    A shallow embedding of [calculate_risk], the display categorizers and
    [generate_pdf].  Python's [float] is IEEE binary64, which is exactly
    Rocq's primitive [float]; Python's unbounded [int] is [Z]; [str] is
    [string].  The scorer mutates two locals, [risk_score] and
    [recommendations]: they are threaded here as a record through one
    step function per commented block of the source. *)

From Stdlib Require Import ZArith Floats List String Ascii Bool Lia.
From Stdlib.Strings Require Import Byte.
From Stdlib Require Import DecimalString.
Import ListNotations.

Set Warnings "-inexact-float".

Local Open Scope string_scope.
Local Open Scope float_scope.

(** ** Python comparisons on floats *)

(** [a >= b] on floats is [b <= a]; all comparisons are false on NaN. *)
Definition fge (a b : float) : bool := PrimFloat.leb b a.
Definition flt (a b : float) : bool := PrimFloat.ltb a b.
Definition fle (a b : float) : bool := PrimFloat.leb a b.

(** ** The scorer's locals *)

Record locals : Type := Locals {
  risk_score : float;
  recommendations : list string
}.

(** [risk_score += p; recommendations.append(msg)] *)
Definition add_and_append (p : float) (msg : string) (st : locals) : locals :=
  Locals (risk_score st + p) (recommendations st ++ [msg]).

(** [recommendations.append(msg)] alone *)
Definition rec_append (msg : string) (st : locals) : locals :=
  Locals (risk_score st) (recommendations st ++ [msg]).

(** [risk_score += p] alone *)
Definition add (p : float) (st : locals) : locals :=
  Locals (risk_score st + p) (recommendations st).

(** ** Advisory strings *)

Module Msg.
Definition bmi_under := "Your BMI is below normal. Consider consulting a nutritionist to reach a healthy weight.".
Definition bmi_healthy := "Your BMI is in the healthy range. Maintain your current lifestyle!".
Definition bmi_over := "Your BMI indicates overweight. Regular exercise and balanced diet can help reduce health risks.".
Definition bmi_obese1 := "Your BMI indicates obesity (Class I). Consult a healthcare provider for a weight management plan.".
Definition bmi_severe := "Your BMI indicates severe obesity. Medical supervision is strongly recommended for weight management.".

Definition bp_low := "Your blood pressure is low. Monitor for symptoms of hypotension and consult a doctor if concerned.".
Definition bp_optimal := "Your blood pressure is optimal. Keep up the good work!".
Definition bp_elevated := "Your blood pressure is elevated. Lifestyle modifications may help prevent hypertension.".
Definition bp_stage1 := "Your blood pressure indicates Stage 1 hypertension. Consult your doctor about management strategies.".
Definition bp_stage2 := "Your blood pressure indicates Stage 2 hypertension. Medical treatment is likely needed.".
Definition bp_crisis := "Your blood pressure is dangerously high. Seek immediate medical attention!".

Definition chol_desirable := "Your cholesterol level is desirable. Continue heart-healthy habits!".
Definition chol_borderline := "Your cholesterol is borderline high. Consider dietary changes to reduce cardiovascular risk.".
Definition chol_high := "Your cholesterol is high. Consult your doctor about medication and lifestyle changes.".

Definition gluc_low := "Your glucose level is low. Monitor for hypoglycemia symptoms and consult your doctor.".
Definition gluc_normal := "Your fasting glucose is normal. Maintain a balanced diet!".
Definition gluc_pre := "Your glucose indicates prediabetes. Lifestyle changes can prevent type 2 diabetes.".
Definition gluc_diabetes := "Your glucose level suggests diabetes. Consult your doctor for proper diagnosis and management.".

Definition age_mid := "Age is a risk factor. Regular health screenings become increasingly important.".
Definition age_senior := "At your age, regular medical check-ups and monitoring are essential.".

Definition smoke_current := "Smoking significantly increases health risks. Consider a smoking cessation program.".
Definition smoke_former := "Great job quitting smoking! Continue to avoid tobacco products.".
Definition smoke_never := "Excellent! Staying smoke-free is one of the best health decisions.".

Definition general_activity := "Engage in at least 150 minutes of moderate aerobic activity per week.".
Definition general_diet := "Stay hydrated and maintain a balanced diet rich in fruits, vegetables, and whole grains.".
Definition general_sleep := "Get 7-9 hours of quality sleep each night.".
Definition general_stress := "Manage stress through relaxation techniques, meditation, or hobbies.".
Definition general_checkups := "Schedule regular check-ups with your healthcare provider.".
End Msg.

(** ** [calculate_risk], block by block *)

(** BMI Risk Assessment.  [bmi] is a float; the integer literals 25, 30
    and 35 compare with it as the floats of the same value. *)
Definition bmi_assessment (bmi : float) (st : locals) : locals :=
  if flt bmi 18.5 then add_and_append 1.0 Msg.bmi_under st
  else if fle 18.5 bmi && flt bmi 25 then rec_append Msg.bmi_healthy st
  else if fle 25 bmi && flt bmi 30 then add_and_append 1.5 Msg.bmi_over st
  else if fle 30 bmi && flt bmi 35 then add_and_append 2.5 Msg.bmi_obese1 st
  else add_and_append 3.5 Msg.bmi_severe st.

(** Blood Pressure Assessment *)
Definition bp_assessment (bp : Z) (st : locals) : locals :=
  if (bp <? 90)%Z then add_and_append 1.0 Msg.bp_low st
  else if (90 <=? bp)%Z && (bp <? 120)%Z then rec_append Msg.bp_optimal st
  else if (120 <=? bp)%Z && (bp <? 130)%Z then add_and_append 0.5 Msg.bp_elevated st
  else if (130 <=? bp)%Z && (bp <? 140)%Z then add_and_append 1.5 Msg.bp_stage1 st
  else if (140 <=? bp)%Z && (bp <? 180)%Z then add_and_append 2.5 Msg.bp_stage2 st
  else add_and_append 4.0 Msg.bp_crisis st.

(** Cholesterol Assessment *)
Definition cholesterol_assessment (cholesterol : Z) (st : locals) : locals :=
  if (cholesterol <? 200)%Z then rec_append Msg.chol_desirable st
  else if (200 <=? cholesterol)%Z && (cholesterol <? 240)%Z
       then add_and_append 1.5 Msg.chol_borderline st
  else add_and_append 2.5 Msg.chol_high st.

(** Glucose Assessment *)
Definition glucose_assessment (glucose : Z) (st : locals) : locals :=
  if (glucose <? 70)%Z then add_and_append 1.0 Msg.gluc_low st
  else if (70 <=? glucose)%Z && (glucose <? 100)%Z then rec_append Msg.gluc_normal st
  else if (100 <=? glucose)%Z && (glucose <? 126)%Z
       then add_and_append 1.5 Msg.gluc_pre st
  else add_and_append 3.0 Msg.gluc_diabetes st.

(** Age Factor *)
Definition age_factor (age : Z) (st : locals) : locals :=
  if (age <? 30)%Z then st
  else if (30 <=? age)%Z && (age <? 45)%Z then add 0.3 st
  else if (45 <=? age)%Z && (age <? 60)%Z then add_and_append 0.8 Msg.age_mid st
  else add_and_append 1.2 Msg.age_senior st.

(** Smoking Factor *)
Definition smoking_factor (smoking : string) (st : locals) : locals :=
  if String.eqb smoking "Current smoker" then add_and_append 2.0 Msg.smoke_current st
  else if String.eqb smoking "Former smoker" then add_and_append 0.5 Msg.smoke_former st
  else rec_append Msg.smoke_never st.

(** General recommendations: five appends *)
Definition general_recommendations (st : locals) : locals :=
  rec_append Msg.general_checkups
    (rec_append Msg.general_stress
      (rec_append Msg.general_sleep
        (rec_append Msg.general_diet
          (rec_append Msg.general_activity st)))).

(** Determine risk level and color *)
Definition risk_level_and_color (risk_score : float) : string * string :=
  if fge risk_score 7 then ("High Risk", "#E74C3C")
  else if fge risk_score 4 then ("Moderate Risk", "#F39C12")
  else if fge risk_score 2 then ("Low-Moderate Risk", "#F9A825")
  else ("Low Risk", "#27AE60").

(** The locals just before the tier is determined. *)
Definition assess (age : Z) (bmi : float) (bp cholesterol glucose : Z)
    (smoking : string) : locals :=
  general_recommendations
    (smoking_factor smoking
      (age_factor age
        (glucose_assessment glucose
          (cholesterol_assessment cholesterol
            (bp_assessment bp
              (bmi_assessment bmi (Locals 0.0 []))))))).

Definition calculate_risk (age : Z) (bmi : float) (bp cholesterol glucose : Z)
    (smoking : string) : string * string * float * list string :=
  let st := assess age bmi bp cholesterol glucose smoking in
  let '(risk_level, color) := risk_level_and_color (risk_score st) in
  (risk_level, color, risk_score st, recommendations st).

(** Projections of the returned tuple. *)
Definition level_of (r : string * string * float * list string) : string :=
  fst (fst (fst r)).
Definition color_of (r : string * string * float * list string) : string :=
  snd (fst (fst r)).
Definition score_of (r : string * string * float * list string) : float :=
  snd (fst r).
Definition recs_of (r : string * string * float * list string) : list string :=
  snd r.


(** ** [calculate_bp_category] *)

Definition calculate_bp_category (bp : Z) : string :=
  if (bp <? 90)%Z then "Low"
  else if (bp <? 120)%Z then "Normal"
  else if (bp <? 130)%Z then "Elevated"
  else if (bp <? 140)%Z then "High (Stage 1)"
  else if (bp <? 180)%Z then "High (Stage 2)"
  else "Hypertensive Crisis".

(** ** Vocabulary of the properties *)

(** The six inputs of one call, as the form collects them. *)
Record risk_input : Type := RiskInput {
  in_age : Z;
  in_bmi : float;
  in_bp : Z;
  in_cholesterol : Z;
  in_glucose : Z;
  in_smoking : string
}.

Definition run (x : risk_input) : string * string * float * list string :=
  calculate_risk (in_age x) (in_bmi x) (in_bp x) (in_cholesterol x)
                 (in_glucose x) (in_smoking x).

(** The declared ranges of the form (section 3 of the specification). *)
Definition valid_input (x : risk_input) : bool :=
  ((1 <=? in_age x)%Z && (in_age x <=? 120)%Z)
  && (fle 10.0 (in_bmi x) && fle (in_bmi x) 60.0)
  && ((60 <=? in_bp x)%Z && (in_bp x <=? 250)%Z)
  && ((100 <=? in_cholesterol x)%Z && (in_cholesterol x <=? 400)%Z)
  && ((50 <=? in_glucose x)%Z && (in_glucose x <=? 300)%Z)
  && (String.eqb (in_smoking x) "Non-smoker"
      || String.eqb (in_smoking x) "Former smoker"
      || String.eqb (in_smoking x) "Current smoker").

(** The penalty of the bucket a block selects: what the block adds to an
    accumulator that starts at [0.0]. *)
Definition penalty_of (block : locals -> locals) : float :=
  risk_score (block (Locals 0.0 [])).

(** Severity order of the four tiers: Low < Low-Moderate < Moderate < High. *)
Definition severity (risk_level : string) : nat :=
  if String.eqb risk_level "High Risk" then 3
  else if String.eqb risk_level "Moderate Risk" then 2
  else if String.eqb risk_level "Low-Moderate Risk" then 1
  else 0.

(** Two inputs that differ in one factor only, the second one in a bucket
    of that factor whose penalty is at least as large. *)
Inductive raises_one_factor : risk_input -> risk_input -> Prop :=
| raise_age a a' b p c g s :
    fle (penalty_of (age_factor a)) (penalty_of (age_factor a')) = true ->
    raises_one_factor (RiskInput a b p c g s) (RiskInput a' b p c g s)
| raise_bmi a b b' p c g s :
    fle (penalty_of (bmi_assessment b)) (penalty_of (bmi_assessment b')) = true ->
    raises_one_factor (RiskInput a b p c g s) (RiskInput a b' p c g s)
| raise_bp a b p p' c g s :
    fle (penalty_of (bp_assessment p)) (penalty_of (bp_assessment p')) = true ->
    raises_one_factor (RiskInput a b p c g s) (RiskInput a b p' c g s)
| raise_cholesterol a b p c c' g s :
    fle (penalty_of (cholesterol_assessment c))
        (penalty_of (cholesterol_assessment c')) = true ->
    raises_one_factor (RiskInput a b p c g s) (RiskInput a b p c' g s)
| raise_glucose a b p c g g' s :
    fle (penalty_of (glucose_assessment g))
        (penalty_of (glucose_assessment g')) = true ->
    raises_one_factor (RiskInput a b p c g s) (RiskInput a b p c g' s)
| raise_smoking a b p c g s s' :
    fle (penalty_of (smoking_factor s)) (penalty_of (smoking_factor s')) = true ->
    raises_one_factor (RiskInput a b p c g s) (RiskInput a b p c g s').

(** *** Effects of a block, for case analysis

    Every branch of every block does the same kind of thing: at most one
    addition to [risk_score] and at most one append.  An [effect] names
    such a branch; each block has finitely many. *)

Definition effect : Type := option float * list string.

Definition bump (o : option float) (s : float) : float :=
  match o with
  | Some p => s + p
  | None => s
  end.

Definition apply_effect (e : effect) (st : locals) : locals :=
  Locals (bump (fst e) (risk_score st)) (recommendations st ++ snd e).

(** Block [block] takes the branch that [e] names, one of [es]. *)
Definition chooses (block : locals -> locals) (es : list effect) (e : effect) : Prop :=
  In e es /\ forall st, block st = apply_effect e st.

Definition bmi_effects : list effect :=
  [ (Some 1.0, [Msg.bmi_under]); (None, [Msg.bmi_healthy]);
    (Some 1.5, [Msg.bmi_over]); (Some 2.5, [Msg.bmi_obese1]);
    (Some 3.5, [Msg.bmi_severe]) ].

Definition bp_effects : list effect :=
  [ (Some 1.0, [Msg.bp_low]); (None, [Msg.bp_optimal]);
    (Some 0.5, [Msg.bp_elevated]); (Some 1.5, [Msg.bp_stage1]);
    (Some 2.5, [Msg.bp_stage2]); (Some 4.0, [Msg.bp_crisis]) ].

Definition cholesterol_effects : list effect :=
  [ (None, [Msg.chol_desirable]); (Some 1.5, [Msg.chol_borderline]);
    (Some 2.5, [Msg.chol_high]) ].

Definition glucose_effects : list effect :=
  [ (Some 1.0, [Msg.gluc_low]); (None, [Msg.gluc_normal]);
    (Some 1.5, [Msg.gluc_pre]); (Some 3.0, [Msg.gluc_diabetes]) ].

Definition age_effects : list effect :=
  [ (None, []); (Some 0.3, []); (Some 0.8, [Msg.age_mid]);
    (Some 1.2, [Msg.age_senior]) ].

Definition smoking_effects : list effect :=
  [ (Some 2.0, [Msg.smoke_current]); (Some 0.5, [Msg.smoke_former]);
    (None, [Msg.smoke_never]) ].

(** The effects of the six blocks, in the order the blocks run. *)
Definition blocks : list (list effect) :=
  [ bmi_effects; bp_effects; cholesterol_effects; glucose_effects;
    age_effects; smoking_effects ].

(** The score a sequence of effects produces from [0.0]. *)
Definition total (es : list effect) : float :=
  fold_left (fun s e => bump (fst e) s) es 0.0.

(** All ways of choosing one effect from each list. *)
Fixpoint product (ls : list (list effect)) : list (list effect) :=
  match ls with
  | [] => [[]]
  | l :: ls' => flat_map (fun e => map (cons e) (product ls')) l
  end.

(** Every choice of one effect per block gives a score that satisfies [P]. *)
Definition all_totals (P : float -> bool) : bool :=
  forallb (fun es => P (total es)) (product blocks).

Definition general : list string :=
  [ Msg.general_activity; Msg.general_diet; Msg.general_sleep;
    Msg.general_stress; Msg.general_checkups ].

(** Score and tier do not decrease from the first score to the second. *)
Definition not_lower (s s' : float) : bool :=
  fle s s'
  && (severity (fst (risk_level_and_color s))
      <=? severity (fst (risk_level_and_color s')))%nat.

(** Block number [k] moves to an effect with a penalty at least as
    large, whatever the other blocks do: nothing gets lower. *)
Definition raise_ok (k : nat) : bool :=
  let xs := nth k blocks [] in
  forallb (fun pre => forallb (fun post =>
    forallb (fun x => forallb (fun x' =>
      implb (fle (bump (fst x) 0.0) (bump (fst x') 0.0))
            (not_lower (total (pre ++ x :: post)) (total (pre ++ x' :: post))))
      xs) xs)
    (product (skipn (S k) blocks))) (product (firstn k blocks)).

(** *** The six blood-pressure buckets, as the specification cuts them

    The axis is cut at 90, 120, 130, 140 and 180, every bucket closed on
    its lower end: the bucket of a value is the number of cut points at
    or below it. *)
Definition bp_cut_points : list Z := [90; 120; 130; 140; 180]%Z.

Definition bp_bucket (bp : Z) : nat :=
  List.length (filter (fun t => (t <=? bp)%Z) bp_cut_points).

Definition bp_labels : list string :=
  [ "Low"; "Normal"; "Elevated"; "High (Stage 1)"; "High (Stage 2)";
    "Hypertensive Crisis" ].

(** *** The accumulator along a run *)

(** The value of [risk_score] at the start and after each of the six
    blocks of [calculate_risk]. *)
Definition accumulators (age : Z) (bmi : float) (bp cholesterol glucose : Z)
    (smoking : string) : list float :=
  let st0 := Locals 0.0 [] in
  let st1 := bmi_assessment bmi st0 in
  let st2 := bp_assessment bp st1 in
  let st3 := cholesterol_assessment cholesterol st2 in
  let st4 := glucose_assessment glucose st3 in
  let st5 := age_factor age st4 in
  let st6 := smoking_factor smoking st5 in
  map risk_score [st0; st1; st2; st3; st4; st5; st6].

Fixpoint nondecreasing (l : list float) : bool :=
  match l with
  | x :: (y :: _) as l' => fle x y && nondecreasing l'
  | _ => true
  end.

(** The accumulator values a sequence of effects goes through from [s]. *)
Fixpoint partial_sums (s : float) (es : list effect) : list float :=
  s :: match es with
       | [] => []
       | e :: es' => partial_sums (bump (fst e) s) es'
       end.

(** An effect adds nothing or a positive constant. *)
Definition adds_positive (e : effect) : bool :=
  match fst e with
  | Some p => flt 0.0 p
  | None => true
  end.

(** The largest penalty of each block, in the order the blocks run. *)
Definition max_penalties : list float := [3.5; 4.0; 2.5; 3.0; 1.2; 2.0].

(** * The report: [generate_pdf]

    [generate_pdf] drives the third-party [fpdf] library, reads the clock,
    formats floats and, on failure, tells Streamlit.  None of that code is
    in the repository, so it is a parameter: an [environment] gives each
    call a meaning on an opaque document state, and each call may raise. *)

(** A call on a document [P] that returns an [A] or raises an [X]. *)
Definition call (P X A : Type) : Type := P -> X + (A * P).

Record environment : Type := Environment {
  pdf : Type;
  exn : Type;
  FPDF : exn + pdf;
  add_page : call pdf exn unit;
  set_font : string -> string -> Z -> call pdf exn unit;
  set_text_color : Z -> Z -> Z -> call pdf exn unit;
  set_draw_color : Z -> Z -> Z -> call pdf exn unit;
  set_line_width : float -> call pdf exn unit;
  cell : Z -> Z -> string -> Z -> Z -> string -> call pdf exn unit;
  multi_cell : Z -> Z -> string -> call pdf exn unit;
  ln : Z -> call pdf exn unit;
  line : Z -> float -> Z -> float -> call pdf exn unit;
  get_y : call pdf exn float;
  output : string -> call pdf exn string;
  encode : string -> string -> exn + list Byte.byte;
  now_strftime : string -> string;
  format_fixed : nat -> float -> string;
  exn_str : exn -> string
}.

(** [str(n)] for an integer. *)
Definition str_of_int (n : Z) : string :=
  NilZero.string_of_int (Z.to_int n).

(** [sub in s] on strings. *)
Fixpoint contains (sub s : string) : bool :=
  String.prefix sub s
  || match s with
     | EmptyString => false
     | String _ s' => contains sub s'
     end.

(** [enumerate(l, start)] *)
Fixpoint enumerate {A : Type} (l : list A) (start : Z) : list (Z * A) :=
  match l with
  | [] => []
  | x :: l' => (start, x) :: enumerate l' (start + 1)
  end.

(** The two characters after [kg/m] in the source, U+00C2 and U+00B2. *)
Definition bmi_unit : string :=
  "kg/m" ++ String (ascii_of_nat 194) (String (ascii_of_nat 178) EmptyString).

Definition disclaimer : string :=
  "DISCLAIMER: This report is generated for educational and informational purposes only. "
  ++ "It is NOT intended to be a substitute for professional medical advice, diagnosis, or treatment. "
  ++ "Always seek the advice of your physician or other qualified health provider with any questions "
  ++ "you may have regarding a medical condition. Never disregard professional medical advice or "
  ++ "delay in seeking it because of something you have read in this report.".

Section Report.

Variable E : environment.

Definition M (A : Type) : Type := call (pdf E) (exn E) A.

Definition ret {A : Type} (a : A) : M A := fun p => inr (a, p).

Definition bind {A B : Type} (m : M A) (k : A -> M B) : M B :=
  fun p => match m p with
           | inl e => inl e
           | inr (a, p') => k a p'
           end.

Local Notation "x <- m ;; k" := (bind m (fun x => k))
  (at level 61, m at next level, right associativity).
Local Notation "m ;; k" := (bind m (fun _ => k))
  (at level 61, right associativity).

(** A [for] loop whose body is a sequence of calls. *)
Fixpoint for_each {A : Type} (l : list A) (body : A -> M unit) : M unit :=
  match l with
  | [] => ret tt
  | x :: l' => body x ;; for_each l' body
  end.

(** [pdf.line(10, pdf.get_y(), 200, pdf.get_y())] *)
Definition rule : M unit :=
  y1 <- get_y E ;;
  y2 <- get_y E ;;
  line E 10 y1 200 y2.

(** The statements of the [try] block after [pdf = FPDF()]. *)
Definition render (risk : string) (score : float) (age : Z) (bmi : float)
    (bp cholesterol glucose : Z) (recommendations : list string)
    : M (list Byte.byte) :=
  add_page E ;;
  (* Title *)
  set_font E "Arial" "B" 20 ;;
  set_text_color E 44 62 80 ;;
  cell E 0 15 "Health Risk Assessment Report" 0 1 "C" ;;
  (* Date *)
  set_font E "Arial" "I" 10 ;;
  set_text_color E 100 100 100 ;;
  cell E 0 8 ("Generated: " ++ now_strftime E "%B %d, %Y at %H:%M") 0 1 "C" ;;
  ln E 10 ;;
  (* Risk Summary Box *)
  set_font E "Arial" "B" 14 ;;
  set_text_color E 44 62 80 ;;
  cell E 0 10 "Risk Assessment Summary" 0 1 "" ;;
  set_line_width E 0.5 ;;
  set_draw_color E 74 144 226 ;;
  rule ;;
  ln E 5 ;;
  (* Risk Level *)
  set_font E "Arial" "B" 12 ;;
  cell E 60 8 "Risk Level:" 0 0 "" ;;
  set_font E "Arial" "" 12 ;;
  (* Color code the risk *)
  (if contains "High" risk then set_text_color E 231 76 60
   else if contains "Moderate" risk then set_text_color E 243 156 18
   else set_text_color E 39 174 96) ;;
  cell E 0 8 risk 0 1 "" ;;
  set_text_color E 44 62 80 ;;
  set_font E "Arial" "B" 12 ;;
  cell E 60 8 "Risk Score:" 0 0 "" ;;
  set_font E "Arial" "" 12 ;;
  cell E 0 8 (format_fixed E 2 score ++ " / 10") 0 1 "" ;;
  ln E 10 ;;
  (* Health Metrics *)
  set_font E "Arial" "B" 14 ;;
  cell E 0 10 "Your Health Metrics" 0 1 "" ;;
  set_line_width E 0.5 ;;
  rule ;;
  ln E 5 ;;
  (* Metrics table *)
  let metrics :=
    [ ("Age", str_of_int age ++ " years");
      ("Body Mass Index (BMI)", format_fixed E 1 bmi ++ " " ++ bmi_unit);
      ("Blood Pressure (Systolic)", str_of_int bp ++ " mmHg");
      ("Total Cholesterol", str_of_int cholesterol ++ " mg/dL");
      ("Fasting Glucose", str_of_int glucose ++ " mg/dL") ] in
  set_font E "Arial" "" 11 ;;
  for_each metrics (fun '(metric, value) =>
    set_font E "Arial" "B" 11 ;;
    cell E 80 7 (metric ++ ":") 0 0 "" ;;
    set_font E "Arial" "" 11 ;;
    cell E 0 7 value 0 1 "") ;;
  ln E 10 ;;
  (* Recommendations *)
  set_font E "Arial" "B" 14 ;;
  cell E 0 10 "Personalized Recommendations" 0 1 "" ;;
  set_line_width E 0.5 ;;
  rule ;;
  ln E 5 ;;
  set_font E "Arial" "" 10 ;;
  for_each (enumerate (firstn 10 recommendations) 1) (fun '(i, rec) =>
    multi_cell E 0 6 (str_of_int i ++ ". " ++ rec) ;;
    ln E 2) ;;
  (* Disclaimer *)
  ln E 10 ;;
  set_font E "Arial" "BI" 8 ;;
  set_text_color E 100 100 100 ;;
  multi_cell E 0 4 disclaimer ;;
  (* Footer *)
  ln E 5 ;;
  set_font E "Arial" "I" 8 ;;
  set_text_color E 150 150 150 ;;
  cell E 0 5 "Designed by smartcare healt care analysis" 0 0 "C" ;;
  s <- output E "S" ;;
  fun p => match encode E s "latin-1" with
           | inl e => inl e
           | inr b => inr (b, p)
           end.

(** The [try] block: what it returns with the document it leaves, or
    the exception that ended it. *)
Definition try_block (risk : string) (score : float) (age : Z) (bmi : float)
    (bp cholesterol glucose : Z) (recommendations : list string)
    : exn E + (list Byte.byte * pdf E) :=
  match FPDF E with
  | inl e => inl e
  | inr p => render risk score age bmi bp cholesterol glucose recommendations p
  end.

(** [generate_pdf]: the bytes returned, and the messages passed to
    [st.error]. *)
Definition generate_pdf (risk : string) (score : float) (age : Z) (bmi : float)
    (bp cholesterol glucose : Z) (recommendations : list string)
    : list Byte.byte * list string :=
  match try_block risk score age bmi bp cholesterol glucose recommendations with
  | inr (b, _) => (b, [])
  | inl e => ([], ["Error generating PDF: " ++ exn_str E e])
  end.

End Report.

(** The serialised document is never empty: what [output] returns
    encodes to at least one byte whenever it encodes at all. *)
Definition serialises_nonempty (E : environment) : Prop :=
  forall dest p s p' b,
    output E dest p = inr (s, p') -> encode E s "latin-1" = inr b -> b <> [].

(** ** A recording stand-in for the library

    To run [generate_pdf] an environment is needed.  This one keeps the
    list of the drawing calls made, in order, and can be told to raise at
    the n-th library call, which forces the fault path. *)

Inductive recorded : Type :=
| RAddPage
| RSetFont (family style : string) (size : Z)
| RSetTextColor (r g b : Z)
| RSetDrawColor (r g b : Z)
| RSetLineWidth (width : float)
| RCell (w h : Z) (txt : string) (border ln : Z) (align : string)
| RMultiCell (w h : Z) (txt : string)
| RLn (h : Z)
| RLine (x1 : Z) (y1 : float) (x2 : Z) (y2 : float).

(** Calls left before the fault ([None]: no fault), and the calls so far. *)
Definition recording : Type := option nat * list recorded.

(** One library call: raise if the budget is spent, else count it. *)
Definition tick {A : Type} (f : list recorded -> A * list recorded)
    : call recording string A :=
  fun '(budget, log) =>
    match budget with
    | Some O => inl "fault"
    | Some (S n) => let '(a, log') := f log in inr (a, (Some n, log'))
    | None => let '(a, log') := f log in inr (a, (None, log'))
    end.

Definition record (c : recorded) : call recording string unit :=
  tick (fun log => (tt, (log ++ [c])%list)).

Definition stand_in (budget : option nat) : environment :=
  {| pdf := recording;
     exn := string;
     FPDF := inr (budget, []);
     add_page := record RAddPage;
     set_font := fun family style size => record (RSetFont family style size);
     set_text_color := fun r g b => record (RSetTextColor r g b);
     set_draw_color := fun r g b => record (RSetDrawColor r g b);
     set_line_width := fun w => record (RSetLineWidth w);
     cell := fun w h txt border ln align => record (RCell w h txt border ln align);
     multi_cell := fun w h txt => record (RMultiCell w h txt);
     ln := fun h => record (RLn h);
     line := fun x1 y1 x2 y2 => record (RLine x1 y1 x2 y2);
     get_y := tick (fun log => (0.0, log));
     output := fun _ => tick (fun log => ("%PDF-1.3", log));
     encode := fun s _ => inr (list_byte_of_string s);
     now_strftime := fun _ => "January 01, 2025 at 00:00";
     format_fixed := fun _ _ => "0.0";
     exn_str := fun e => e |}.

(** The texts of the [multi_cell] calls of a recording, in order. *)
Definition multi_cell_texts (log : list recorded) : list string :=
  flat_map (fun c => match c with
                     | RMultiCell _ _ txt => [txt]
                     | _ => []
                     end) log.

(** The line [generate_pdf] writes for recommendation [rec] numbered [i]. *)
Definition numbered (item : Z * string) : string :=
  str_of_int (fst item) ++ ". " ++ snd item.

(** * The rest of [risk_utils.py] *)

(** [d.get(key, default)] on a dict literal, given by its items. *)
Definition dict_get (d : list (string * string)) (key default : string) : string :=
  match find (fun kv => String.eqb (fst kv) key) d with
  | Some kv => snd kv
  | None => default
  end.

Definition interpretations : list (string * string) :=
  [ ("Low Risk", "Your current health metrics indicate a low risk profile. Continue maintaining healthy lifestyle habits and regular check-ups.");
    ("Low-Moderate Risk", "Your health metrics show some areas that could benefit from attention. Minor lifestyle modifications may help reduce your risk further.");
    ("Moderate Risk", "Your health metrics indicate moderate risk factors. It's important to address these through lifestyle changes and possibly medical consultation.");
    ("High Risk", "Your health metrics indicate significant risk factors. We strongly recommend consulting with a healthcare professional for a comprehensive evaluation and treatment plan.") ].

Definition no_interpretation : string :=
  "Please consult a healthcare professional for interpretation.".

Definition get_risk_interpretation (risk_level : string) : string :=
  dict_get interpretations risk_level no_interpretation.

Definition calculate_bmi_category (bmi : float) : string :=
  if flt bmi 18.5 then "Underweight"
  else if fle 18.5 bmi && flt bmi 25 then "Normal Weight"
  else if fle 25 bmi && flt bmi 30 then "Overweight"
  else if fle 30 bmi && flt bmi 35 then "Obese (Class I)"
  else if fle 35 bmi && flt bmi 40 then "Obese (Class II)"
  else "Obese (Class III)".

Definition calculate_cholesterol_category (cholesterol : Z) : string :=
  if (cholesterol <? 200)%Z then "Desirable"
  else if (cholesterol <? 240)%Z then "Borderline High"
  else "High".

Definition calculate_glucose_category (glucose : Z) : string :=
  if (glucose <? 70)%Z then "Low"
  else if (glucose <? 100)%Z then "Normal"
  else if (glucose <? 126)%Z then "Prediabetes"
  else "Diabetes Range".

(** * The risk page of [app.py]: what [show_risk_simulation] does with
    the result of [calculate_risk] *)

(** The status shown under each metric. *)
Definition bmi_status (bmi : float) : string :=
  if fle 18.5 bmi && fle bmi 24.9 then "Normal" else "Elevated".

Definition bp_status (bp : Z) : string :=
  if (bp <? 120)%Z then "Normal" else "Elevated".

Definition chol_status (cholesterol : Z) : string :=
  if (cholesterol <? 200)%Z then "Normal" else "Elevated".

Definition gluc_status (glucose : Z) : string :=
  if (glucose <? 100)%Z then "Normal" else "Elevated".

(** The texts of the [st.info] boxes: every recommendation, numbered
    from 1. *)
Definition shown_recommendations (recommendations : list string) : list string :=
  map numbered (enumerate recommendations 1).

(** What the download block puts on the page.  The label of the button
    and its layout flag have no bearing and are left out. *)
Inductive shown : Type :=
| StError (msg : string)
| StDownloadButton (data : list Byte.byte) (file_name mime : string).

(** The download block.  [today] is [pd.Timestamp.now().strftime('%Y%m%d')];
    [button_raises] tells whether [st.download_button] raises on the
    data, and with which message. *)
Definition download_block (E : environment) (today : string)
    (button_raises : list Byte.byte -> option string)
    (risk : string) (score : float) (age : Z) (bmi : float)
    (bp cholesterol glucose : Z) (recommendations : list string) : list shown :=
  let '(pdf_bytes, errors) :=
    generate_pdf E risk score age bmi bp cholesterol glucose recommendations in
  (map StError errors
   ++ if negb (Nat.eqb (List.length pdf_bytes) 0) && (0 <? List.length pdf_bytes)%nat
      then match button_raises pdf_bytes with
           | None => [StDownloadButton pdf_bytes
                        ("health_risk_report_" ++ today ++ ".pdf")
                        "application/pdf"]
           | Some e => [StError ("Error generating PDF: " ++ e)]
           end
      else [StError "Failed to generate PDF report."])%list.

(** ** Vocabulary of the further properties *)

(** The bucket of [v] on an axis cut at [cuts], lower ends closed. *)
Definition bucket (cuts : list Z) (v : Z) : nat :=
  List.length (filter (fun t => (t <=? v)%Z) cuts).

Definition cholesterol_labels : list string :=
  [ "Desirable"; "Borderline High"; "High" ].

Definition glucose_labels : list string :=
  [ "Low"; "Normal"; "Prediabetes"; "Diabetes Range" ].

(** Which branch of the BMI block each BMI label goes with. *)
Definition bmi_label_effects : list (string * effect) :=
  [ ("Underweight", (Some 1.0, [Msg.bmi_under]));
    ("Normal Weight", (None, [Msg.bmi_healthy]));
    ("Overweight", (Some 1.5, [Msg.bmi_over]));
    ("Obese (Class I)", (Some 2.5, [Msg.bmi_obese1]));
    ("Obese (Class II)", (Some 3.5, [Msg.bmi_severe]));
    ("Obese (Class III)", (Some 3.5, [Msg.bmi_severe])) ].

(** The advice the age block appends. *)
Definition age_advice (age : Z) : list string :=
  if (age <? 45)%Z then []
  else if (age <? 60)%Z then [Msg.age_mid]
  else [Msg.age_senior].

(** All the advice strings of a block. *)
Definition advice_of (es : list effect) : list string :=
  List.concat (map snd es).

(** The six bucket penalties of an input, in the order the blocks run. *)
Definition penalties (x : risk_input) : list float :=
  [ penalty_of (bmi_assessment (in_bmi x));
    penalty_of (bp_assessment (in_bp x));
    penalty_of (cholesterol_assessment (in_cholesterol x));
    penalty_of (glucose_assessment (in_glucose x));
    penalty_of (age_factor (in_age x));
    penalty_of (smoking_factor (in_smoking x)) ].

(** How many of them are not zero. *)
Definition penalised (ps : list float) : nat :=
  List.length (filter (fun p => flt 0.0 p) ps).

(** *** The scorer in exact decimals

    The penalty literals of the source read as decimals, in tenths, and
    added as integers. *)
Definition bmi_tenths (bmi : float) : Z :=
  if flt bmi 18.5 then 10
  else if fle 18.5 bmi && flt bmi 25 then 0
  else if fle 25 bmi && flt bmi 30 then 15
  else if fle 30 bmi && flt bmi 35 then 25
  else 35.

Definition bp_tenths (bp : Z) : Z :=
  if (bp <? 90)%Z then 10
  else if (90 <=? bp)%Z && (bp <? 120)%Z then 0
  else if (120 <=? bp)%Z && (bp <? 130)%Z then 5
  else if (130 <=? bp)%Z && (bp <? 140)%Z then 15
  else if (140 <=? bp)%Z && (bp <? 180)%Z then 25
  else 40.

Definition cholesterol_tenths (cholesterol : Z) : Z :=
  if (cholesterol <? 200)%Z then 0
  else if (200 <=? cholesterol)%Z && (cholesterol <? 240)%Z then 15
  else 25.

Definition glucose_tenths (glucose : Z) : Z :=
  if (glucose <? 70)%Z then 10
  else if (70 <=? glucose)%Z && (glucose <? 100)%Z then 0
  else if (100 <=? glucose)%Z && (glucose <? 126)%Z then 15
  else 30.

Definition age_tenths (age : Z) : Z :=
  if (age <? 30)%Z then 0
  else if (30 <=? age)%Z && (age <? 45)%Z then 3
  else if (45 <=? age)%Z && (age <? 60)%Z then 8
  else 12.

Definition smoking_tenths (smoking : string) : Z :=
  if String.eqb smoking "Current smoker" then 20
  else if String.eqb smoking "Former smoker" then 5
  else 0.

Definition score_tenths (age : Z) (bmi : float) (bp cholesterol glucose : Z)
    (smoking : string) : Z :=
  (bmi_tenths bmi + bp_tenths bp + cholesterol_tenths cholesterol
   + glucose_tenths glucose + age_tenths age + smoking_tenths smoking)%Z.

(** The thresholds 7, 4 and 2 on a score in tenths. *)
Definition level_of_tenths (t : Z) : string :=
  if (70 <=? t)%Z then "High Risk"
  else if (40 <=? t)%Z then "Moderate Risk"
  else if (20 <=? t)%Z then "Low-Moderate Risk"
  else "Low Risk".

(** The float nearest to [t] tenths: [t / 10], division being correctly
    rounded and [t] small enough to be a float exactly. *)
Definition float_of_tenths (t : Z) : float :=
  PrimFloat.of_uint63 (Uint63.of_Z t) / 10.

(** The decimal value, in tenths, of the penalty literals of the source. *)
Definition literal_tenths : list (float * Z) :=
  [ (0.3, 3%Z); (0.5, 5%Z); (0.8, 8%Z); (1.0, 10%Z); (1.2, 12%Z); (1.5, 15%Z);
    (2.0, 20%Z); (2.5, 25%Z); (3.0, 30%Z); (3.5, 35%Z); (4.0, 40%Z) ].

Definition effect_tenths (e : effect) : Z :=
  match fst e with
  | None => 0
  | Some p => match find (fun row => PrimFloat.Leibniz.eqb (fst row) p) literal_tenths with
              | Some row => snd row
              | None => 0
              end
  end.

(** *** Colors *)

Definition hex_digit (n : Z) : string :=
  String.substring (Z.to_nat n) 1 "0123456789ABCDEF".

(** The [#RRGGBB] code of a color given by its three components. *)
Definition hex_color (r g b : Z) : string :=
  "#" ++ hex_digit (r / 16) ++ hex_digit (r mod 16)
      ++ hex_digit (g / 16) ++ hex_digit (g mod 16)
      ++ hex_digit (b / 16) ++ hex_digit (b mod 16).

(** ** What the library lets [generate_pdf] do

    Whether a document comes back depends on the library.  These
    predicates say that a call of it always returns, or always raises,
    whatever the document it is made on. *)









(** * Properties of the scorer *)

Section Effects.

Local Tactic Notation "pick" integer(n) := do n right; left; reflexivity.

Lemma apply_effect_id st : apply_effect (None, []) st = st.
Proof. destruct st; unfold apply_effect; simpl. now rewrite app_nil_r. Qed.

Lemma bmi_assessment_effect bmi :
  exists e, chooses (bmi_assessment bmi) bmi_effects e.
Proof.
  unfold bmi_assessment.
  destruct (flt bmi 18.5); [eexists; split; [pick 0|reflexivity]|].
  destruct (fle 18.5 bmi && flt bmi 25); [eexists; split; [pick 1|reflexivity]|].
  destruct (fle 25 bmi && flt bmi 30); [eexists; split; [pick 2|reflexivity]|].
  destruct (fle 30 bmi && flt bmi 35); [eexists; split; [pick 3|reflexivity]|].
  eexists; split; [pick 4|reflexivity].
Qed.

Lemma bp_assessment_effect bp :
  exists e, chooses (bp_assessment bp) bp_effects e.
Proof.
  unfold bp_assessment.
  destruct (bp <? 90)%Z; [eexists; split; [pick 0|reflexivity]|].
  destruct ((90 <=? bp)%Z && (bp <? 120)%Z); [eexists; split; [pick 1|reflexivity]|].
  destruct ((120 <=? bp)%Z && (bp <? 130)%Z); [eexists; split; [pick 2|reflexivity]|].
  destruct ((130 <=? bp)%Z && (bp <? 140)%Z); [eexists; split; [pick 3|reflexivity]|].
  destruct ((140 <=? bp)%Z && (bp <? 180)%Z); [eexists; split; [pick 4|reflexivity]|].
  eexists; split; [pick 5|reflexivity].
Qed.

Lemma cholesterol_assessment_effect c :
  exists e, chooses (cholesterol_assessment c) cholesterol_effects e.
Proof.
  unfold cholesterol_assessment.
  destruct (c <? 200)%Z; [eexists; split; [pick 0|reflexivity]|].
  destruct ((200 <=? c)%Z && (c <? 240)%Z); [eexists; split; [pick 1|reflexivity]|].
  eexists; split; [pick 2|reflexivity].
Qed.

Lemma glucose_assessment_effect g :
  exists e, chooses (glucose_assessment g) glucose_effects e.
Proof.
  unfold glucose_assessment.
  destruct (g <? 70)%Z; [eexists; split; [pick 0|reflexivity]|].
  destruct ((70 <=? g)%Z && (g <? 100)%Z); [eexists; split; [pick 1|reflexivity]|].
  destruct ((100 <=? g)%Z && (g <? 126)%Z); [eexists; split; [pick 2|reflexivity]|].
  eexists; split; [pick 3|reflexivity].
Qed.

Lemma age_factor_effect a :
  exists e, chooses (age_factor a) age_effects e.
Proof.
  unfold age_factor.
  destruct (a <? 30)%Z.
  { eexists; split; [pick 0|]. intros st. now rewrite apply_effect_id. }
  destruct ((30 <=? a)%Z && (a <? 45)%Z).
  { eexists; split; [pick 1|]. intros [s r]. unfold apply_effect, add; simpl.
    now rewrite app_nil_r. }
  destruct ((45 <=? a)%Z && (a <? 60)%Z); [eexists; split; [pick 2|reflexivity]|].
  eexists; split; [pick 3|reflexivity].
Qed.

Lemma smoking_factor_effect s :
  exists e, chooses (smoking_factor s) smoking_effects e.
Proof.
  unfold smoking_factor.
  destruct (String.eqb s "Current smoker"); [eexists; split; [pick 0|reflexivity]|].
  destruct (String.eqb s "Former smoker"); [eexists; split; [pick 1|reflexivity]|].
  eexists; split; [pick 2|reflexivity].
Qed.

End Effects.

Section Enumeration.

Lemma in_product es ls :
  Forall2 (fun e l => In e l) es ls -> In es (product ls).
Proof.
  induction 1 as [|e l es ls He _ IH]; simpl.
  - now left.
  - apply in_flat_map. exists e. split; [assumption|].
    now apply in_map.
Qed.

Lemma all_choices_sound (P : list effect -> bool) b p c g a s :
  forallb P (product blocks) = true ->
  In b bmi_effects -> In p bp_effects -> In c cholesterol_effects ->
  In g glucose_effects -> In a age_effects -> In s smoking_effects ->
  P [b; p; c; g; a; s] = true.
Proof.
  intros HP Hb Hp Hc Hg Ha Hs.
  rewrite forallb_forall in HP.
  apply HP, in_product. unfold blocks.
  repeat (apply Forall2_cons; [assumption|]). apply Forall2_nil.
Qed.

Lemma all_totals_sound P b p c g a s :
  all_totals P = true ->
  In b bmi_effects -> In p bp_effects -> In c cholesterol_effects ->
  In g glucose_effects -> In a age_effects -> In s smoking_effects ->
  P (total [b; p; c; g; a; s]) = true.
Proof.
  intros HP. now apply (all_choices_sound (fun es => P (total es))).
Qed.

Lemma raise_ok_sound k pre post x x' :
  raise_ok k = true ->
  In pre (product (firstn k blocks)) ->
  In post (product (skipn (S k) blocks)) ->
  In x (nth k blocks []) -> In x' (nth k blocks []) ->
  fle (bump (fst x) 0.0) (bump (fst x') 0.0) = true ->
  not_lower (total (pre ++ x :: post)) (total (pre ++ x' :: post)) = true.
Proof.
  intros Hk Hpre Hpost Hx Hx' Hle. unfold raise_ok in Hk.
  rewrite forallb_forall in Hk. specialize (Hk _ Hpre).
  rewrite forallb_forall in Hk. specialize (Hk _ Hpost).
  rewrite forallb_forall in Hk. specialize (Hk _ Hx).
  rewrite forallb_forall in Hk. specialize (Hk _ Hx').
  now rewrite Hle in Hk.
Qed.

Lemma raise_ok_blocks : forallb raise_ok (seq 0 6) = true.
Proof. vm_compute. reflexivity. Qed.

End Enumeration.

(** What a whole run does, in terms of the effect each block chose. *)
Lemma assess_chosen age bmi bp cholesterol glucose smoking b p c g a s :
  chooses (bmi_assessment bmi) bmi_effects b ->
  chooses (bp_assessment bp) bp_effects p ->
  chooses (cholesterol_assessment cholesterol) cholesterol_effects c ->
  chooses (glucose_assessment glucose) glucose_effects g ->
  chooses (age_factor age) age_effects a ->
  chooses (smoking_factor smoking) smoking_effects s ->
  assess age bmi bp cholesterol glucose smoking
  = Locals (total [b; p; c; g; a; s])
           (snd b ++ snd p ++ snd c ++ snd g ++ snd a ++ snd s ++ general).
Proof.
  intros [_ Eb] [_ Ep] [_ Ec] [_ Eg] [_ Ea] [_ Es].
  unfold assess. rewrite Eb, Ep, Ec, Eg, Ea, Es.
  unfold general_recommendations, rec_append, apply_effect, total, general.
  simpl. f_equal. now rewrite <- !app_assoc.
Qed.

Lemma penalty_chosen block es e :
  chooses block es e -> penalty_of block = bump (fst e) 0.0.
Proof. intros [_ E]. unfold penalty_of. now rewrite E. Qed.

Lemma assess_effects age bmi bp cholesterol glucose smoking :
  exists b p c g a s,
    (In b bmi_effects /\ In p bp_effects /\ In c cholesterol_effects
     /\ In g glucose_effects /\ In a age_effects /\ In s smoking_effects)
    /\ assess age bmi bp cholesterol glucose smoking
       = Locals (total [b; p; c; g; a; s])
                (snd b ++ snd p ++ snd c ++ snd g ++ snd a ++ snd s ++ general).
Proof.
  destruct (bmi_assessment_effect bmi) as (b & Hb).
  destruct (bp_assessment_effect bp) as (p & Hp).
  destruct (cholesterol_assessment_effect cholesterol) as (c & Hc).
  destruct (glucose_assessment_effect glucose) as (g & Hg).
  destruct (age_factor_effect age) as (a & Ha).
  destruct (smoking_factor_effect smoking) as (s & Hs).
  exists b, p, c, g, a, s. split.
  - unfold chooses in *. tauto.
  - now apply assess_chosen.
Qed.

Lemma score_of_calculate_risk age bmi bp cholesterol glucose smoking :
  score_of (calculate_risk age bmi bp cholesterol glucose smoking)
  = risk_score (assess age bmi bp cholesterol glucose smoking).
Proof.
  unfold calculate_risk.
  now destruct (risk_level_and_color _).
Qed.

Lemma recs_of_calculate_risk age bmi bp cholesterol glucose smoking :
  recs_of (calculate_risk age bmi bp cholesterol glucose smoking)
  = recommendations (assess age bmi bp cholesterol glucose smoking).
Proof.
  unfold calculate_risk.
  now destruct (risk_level_and_color _).
Qed.

Lemma level_of_calculate_risk age bmi bp cholesterol glucose smoking :
  level_of (calculate_risk age bmi bp cholesterol glucose smoking)
  = fst (risk_level_and_color
           (risk_score (assess age bmi bp cholesterol glucose smoking))).
Proof.
  unfold calculate_risk.
  now destruct (risk_level_and_color _).
Qed.

Lemma color_of_calculate_risk age bmi bp cholesterol glucose smoking :
  color_of (calculate_risk age bmi bp cholesterol glucose smoking)
  = snd (risk_level_and_color
           (risk_score (assess age bmi bp cholesterol glucose smoking))).
Proof.
  unfold calculate_risk.
  now destruct (risk_level_and_color _).
Qed.

(** * Main results on [calculate_risk] *)

(** C1. A value on a bucket boundary gets the bucket it is the closed
    lower end of.  Block by block, for any accumulator: bmi=25.0 adds 1.5
    with the overweight advice, bp=120 adds 0.5 (elevated), cholesterol=200
    adds 1.5 (borderline high), glucose=100 adds 1.5 (prediabetes), age=45
    adds 0.8 and age=30 adds 0.3; the same holds at every other boundary
    of the tables.  On an otherwise penalty-free input the score
    [calculate_risk] returns is that penalty. *)
Theorem boundary_exactness :
  (forall st,
      bmi_assessment 25.0 st = add_and_append 1.5 Msg.bmi_over st
      /\ bp_assessment 120 st = add_and_append 0.5 Msg.bp_elevated st
      /\ cholesterol_assessment 200 st = add_and_append 1.5 Msg.chol_borderline st
      /\ glucose_assessment 100 st = add_and_append 1.5 Msg.gluc_pre st
      /\ age_factor 45 st = add_and_append 0.8 Msg.age_mid st
      /\ age_factor 30 st = add 0.3 st)
  /\ (forall st,
      bmi_assessment 18.5 st = rec_append Msg.bmi_healthy st
      /\ bmi_assessment 30.0 st = add_and_append 2.5 Msg.bmi_obese1 st
      /\ bmi_assessment 35.0 st = add_and_append 3.5 Msg.bmi_severe st
      /\ bp_assessment 90 st = rec_append Msg.bp_optimal st
      /\ bp_assessment 130 st = add_and_append 1.5 Msg.bp_stage1 st
      /\ bp_assessment 140 st = add_and_append 2.5 Msg.bp_stage2 st
      /\ bp_assessment 180 st = add_and_append 4.0 Msg.bp_crisis st
      /\ cholesterol_assessment 240 st = add_and_append 2.5 Msg.chol_high st
      /\ glucose_assessment 70 st = rec_append Msg.gluc_normal st
      /\ glucose_assessment 126 st = add_and_append 3.0 Msg.gluc_diabetes st
      /\ age_factor 60 st = add_and_append 1.2 Msg.age_senior st)
  /\ (score_of (calculate_risk 25 25.0 110 180 85 "Non-smoker") = 1.5
      /\ score_of (calculate_risk 25 22.0 120 180 85 "Non-smoker") = 0.5
      /\ score_of (calculate_risk 25 22.0 110 200 85 "Non-smoker") = 1.5
      /\ score_of (calculate_risk 25 22.0 110 180 100 "Non-smoker") = 1.5
      /\ score_of (calculate_risk 45 22.0 110 180 85 "Non-smoker") = 0.8
      /\ score_of (calculate_risk 30 22.0 110 180 85 "Non-smoker") = 0.3).
Proof.
  split; [|split].
  - intros st. repeat split.
  - intros st. repeat split.
  - repeat split.
Qed.

(** C2. Tier and color come from the final score alone, thresholds
    checked from the highest down and the first match taken: at least 7
    is High Risk in #E74C3C, else at least 4 is Moderate Risk in #F39C12,
    else at least 2 is Low-Moderate Risk in #F9A825, else Low Risk in
    #27AE60. *)
Theorem tier_from_score age bmi bp cholesterol glucose smoking :
  let r := calculate_risk age bmi bp cholesterol glucose smoking in
  (level_of r, color_of r)
  = match fge (score_of r) 7, fge (score_of r) 4, fge (score_of r) 2 with
    | true, _, _ => ("High Risk", "#E74C3C")
    | false, true, _ => ("Moderate Risk", "#F39C12")
    | false, false, true => ("Low-Moderate Risk", "#F9A825")
    | false, false, false => ("Low Risk", "#27AE60")
    end.
Proof.
  cbv zeta.
  rewrite level_of_calculate_risk, color_of_calculate_risk,
    score_of_calculate_risk.
  unfold risk_level_and_color.
  destruct (fge _ 7); [reflexivity|].
  destruct (fge _ 4); [reflexivity|].
  destruct (fge _ 2); reflexivity.
Qed.

Section Monotone.

Lemma not_lower_run x x' :
  not_lower (score_of (run x)) (score_of (run x')) = true ->
  fle (score_of (run x)) (score_of (run x')) = true
  /\ (severity (level_of (run x)) <= severity (level_of (run x')))%nat.
Proof.
  unfold run. rewrite !level_of_calculate_risk, !score_of_calculate_risk.
  unfold not_lower. intros H. apply andb_true_iff in H as [H1 H2].
  split; [assumption|]. now apply Nat.leb_le.
Qed.

Lemma raise_ok_at k : (k < 6)%nat -> raise_ok k = true.
Proof.
  intros Hk. pose proof raise_ok_blocks as H.
  rewrite forallb_forall in H. apply H, in_seq. lia.
Qed.

Local Ltac chosen :=
  unfold chooses in *; cbv [firstn skipn nth blocks];
  solve [ tauto
        | apply in_product; repeat (apply Forall2_cons; [tauto|]);
          apply Forall2_nil ].

Local Ltac raised k pre post :=
  cbn [risk_score];
  apply (raise_ok_sound k pre post);
  [ apply raise_ok_at; lia | chosen | chosen | chosen | chosen | assumption ].

Lemma raises_not_lower x x' :
  raises_one_factor x x' ->
  not_lower (score_of (run x)) (score_of (run x')) = true.
Proof.
  intros H. unfold run.
  destruct H as [a a' b p c g s H | a b b' p c g s H | a b p p' c g s H
                | a b p c c' g s H | a b p c g g' s H | a b p c g s s' H];
    cbn [in_age in_bmi in_bp in_cholesterol in_glucose in_smoking];
    rewrite !score_of_calculate_risk;
    destruct (bmi_assessment_effect b) as (eb & Hb);
    destruct (bp_assessment_effect p) as (ep & Hp);
    destruct (cholesterol_assessment_effect c) as (ec & Hc);
    destruct (glucose_assessment_effect g) as (eg & Hg);
    destruct (age_factor_effect a) as (ea & Ha);
    destruct (smoking_factor_effect s) as (es & Hs).
  - destruct (age_factor_effect a') as (ea' & Ha').
    rewrite (penalty_chosen _ _ _ Ha), (penalty_chosen _ _ _ Ha') in H.
    rewrite (assess_chosen _ _ _ _ _ _ _ _ _ _ _ _ Hb Hp Hc Hg Ha Hs).
    rewrite (assess_chosen _ _ _ _ _ _ _ _ _ _ _ _ Hb Hp Hc Hg Ha' Hs).
    raised 4%nat [eb; ep; ec; eg] [es].
  - destruct (bmi_assessment_effect b') as (eb' & Hb').
    rewrite (penalty_chosen _ _ _ Hb), (penalty_chosen _ _ _ Hb') in H.
    rewrite (assess_chosen _ _ _ _ _ _ _ _ _ _ _ _ Hb Hp Hc Hg Ha Hs).
    rewrite (assess_chosen _ _ _ _ _ _ _ _ _ _ _ _ Hb' Hp Hc Hg Ha Hs).
    raised 0%nat (@nil effect) [ep; ec; eg; ea; es].
  - destruct (bp_assessment_effect p') as (ep' & Hp').
    rewrite (penalty_chosen _ _ _ Hp), (penalty_chosen _ _ _ Hp') in H.
    rewrite (assess_chosen _ _ _ _ _ _ _ _ _ _ _ _ Hb Hp Hc Hg Ha Hs).
    rewrite (assess_chosen _ _ _ _ _ _ _ _ _ _ _ _ Hb Hp' Hc Hg Ha Hs).
    raised 1%nat [eb] [ec; eg; ea; es].
  - destruct (cholesterol_assessment_effect c') as (ec' & Hc').
    rewrite (penalty_chosen _ _ _ Hc), (penalty_chosen _ _ _ Hc') in H.
    rewrite (assess_chosen _ _ _ _ _ _ _ _ _ _ _ _ Hb Hp Hc Hg Ha Hs).
    rewrite (assess_chosen _ _ _ _ _ _ _ _ _ _ _ _ Hb Hp Hc' Hg Ha Hs).
    raised 2%nat [eb; ep] [eg; ea; es].
  - destruct (glucose_assessment_effect g') as (eg' & Hg').
    rewrite (penalty_chosen _ _ _ Hg), (penalty_chosen _ _ _ Hg') in H.
    rewrite (assess_chosen _ _ _ _ _ _ _ _ _ _ _ _ Hb Hp Hc Hg Ha Hs).
    rewrite (assess_chosen _ _ _ _ _ _ _ _ _ _ _ _ Hb Hp Hc Hg' Ha Hs).
    raised 3%nat [eb; ep; ec] [ea; es].
  - destruct (smoking_factor_effect s') as (es' & Hs').
    rewrite (penalty_chosen _ _ _ Hs), (penalty_chosen _ _ _ Hs') in H.
    rewrite (assess_chosen _ _ _ _ _ _ _ _ _ _ _ _ Hb Hp Hc Hg Ha Hs).
    rewrite (assess_chosen _ _ _ _ _ _ _ _ _ _ _ _ Hb Hp Hc Hg Ha Hs').
    raised 5%nat [eb; ep; ec; eg; ea] (@nil effect).
Qed.


(** C3. Two inputs differ in one factor only, and that factor's bucket in
    the second has a penalty at least as large as in the first: the score
    of the second is not lower, and neither is its tier in the order
    Low < Low-Moderate < Moderate < High.  This holds for all inputs, in
    or out of the declared ranges. *)
Theorem single_factor_monotone x x' :
  raises_one_factor x x' ->
  fle (score_of (run x)) (score_of (run x')) = true
  /\ (severity (level_of (run x)) <= severity (level_of (run x')))%nat.
Proof.
  intros H. now apply not_lower_run, raises_not_lower.
Qed.

Lemma single_factor_monotone_witness :
  raises_one_factor (RiskInput 30 25.0 120 200 100 "Non-smoker")
                    (RiskInput 30 25.0 150 200 100 "Non-smoker")
  /\ fle (score_of (run (RiskInput 30 25.0 120 200 100 "Non-smoker")))
         (score_of (run (RiskInput 30 25.0 150 200 100 "Non-smoker"))) = true
  /\ (severity (level_of (run (RiskInput 30 25.0 120 200 100 "Non-smoker")))
      <= severity (level_of (run (RiskInput 30 25.0 150 200 100 "Non-smoker"))))%nat.
Proof.
  assert (H : raises_one_factor (RiskInput 30 25.0 120 200 100 "Non-smoker")
                                (RiskInput 30 25.0 150 200 100 "Non-smoker"))
    by (apply raise_bp; reflexivity).
  split; [exact H|].
  exact (single_factor_monotone _ _ H).
Defined.

End Monotone.

(** C4. The three worked examples: the form's defaults score 5.3,
    Moderate Risk, #F39C12; the all-worst input scores 16.2, High Risk;
    the all-healthy input scores 0.0, Low Risk, #27AE60. *)
Theorem worked_examples :
  (let r := calculate_risk 30 25.0 120 200 100 "Non-smoker" in
   score_of r = 5.3 /\ level_of r = "Moderate Risk" /\ color_of r = "#F39C12")
  /\ (let r := calculate_risk 65 38.0 190 260 135 "Current smoker" in
      score_of r = 16.2 /\ level_of r = "High Risk")
  /\ (let r := calculate_risk 25 22.0 110 180 85 "Non-smoker" in
      score_of r = 0.0 /\ level_of r = "Low Risk" /\ color_of r = "#27AE60").
Proof. repeat split. Qed.

Lemma skipn_suffix (pre suf : list string) :
  skipn (List.length (pre ++ suf) - List.length suf) (pre ++ suf) = suf.
Proof.
  rewrite length_app, Nat.add_sub.
  rewrite skipn_app, Nat.sub_diag, skipn_all. reflexivity.
Qed.

(** C5. Whatever the input, the recommendations end with the same five
    general lines (activity, diet, sleep, stress, check-ups) in that
    order: they are the last five elements of the list. *)
Theorem recommendations_end_with_general age bmi bp cholesterol glucose smoking :
  let recs := recs_of (calculate_risk age bmi bp cholesterol glucose smoking) in
  (exists specific, recs = (specific ++ general)%list)
  /\ skipn (List.length recs - 5) recs
     = [ Msg.general_activity; Msg.general_diet; Msg.general_sleep;
         Msg.general_stress; Msg.general_checkups ].
Proof.
  cbv zeta. rewrite recs_of_calculate_risk.
  destruct (assess_effects age bmi bp cholesterol glucose smoking)
    as (b & p & c & g & a & s & _ & ->).
  cbn [recommendations]. rewrite !app_assoc. split.
  - eexists. reflexivity.
  - apply (skipn_suffix _ general).
Qed.

Section Bounds.

Lemma all_totals_nonnegative : all_totals (fle 0.0) = true.
Proof. vm_compute. reflexivity. Qed.

Lemma all_totals_bounded : all_totals (fun s => fle s 16.2) = true.
Proof. vm_compute. reflexivity. Qed.

Lemma all_effects_add_positive : forallb (forallb adds_positive) blocks = true.
Proof. vm_compute. reflexivity. Qed.

Lemma all_partial_sums_nondecreasing :
  forallb (fun es => nondecreasing (partial_sums 0.0 es)) (product blocks) = true.
Proof. vm_compute. reflexivity. Qed.

Lemma score_satisfies P age bmi bp cholesterol glucose smoking :
  all_totals P = true ->
  P (score_of (calculate_risk age bmi bp cholesterol glucose smoking)) = true.
Proof.
  intros HP. rewrite score_of_calculate_risk.
  destruct (assess_effects age bmi bp cholesterol glucose smoking)
    as (b & p & c & g & a & s & Hin & ->).
  cbn [risk_score]. apply all_totals_sound; tauto.
Qed.

Lemma chosen_adds_positive block es e :
  In es blocks -> chooses block es e -> adds_positive e = true.
Proof.
  intros Hes [He _]. pose proof all_effects_add_positive as H.
  rewrite forallb_forall in H. specialize (H _ Hes).
  rewrite forallb_forall in H. now apply H.
Qed.

Lemma accumulators_chosen age bmi bp cholesterol glucose smoking b p c g a s :
  chooses (bmi_assessment bmi) bmi_effects b ->
  chooses (bp_assessment bp) bp_effects p ->
  chooses (cholesterol_assessment cholesterol) cholesterol_effects c ->
  chooses (glucose_assessment glucose) glucose_effects g ->
  chooses (age_factor age) age_effects a ->
  chooses (smoking_factor smoking) smoking_effects s ->
  accumulators age bmi bp cholesterol glucose smoking
  = partial_sums 0.0 [b; p; c; g; a; s].
Proof.
  intros [_ Eb] [_ Ep] [_ Ec] [_ Eg] [_ Ea] [_ Es].
  unfold accumulators. cbv zeta. rewrite Eb, Ep, Ec, Eg, Ea, Es. reflexivity.
Qed.

(** C8. The score is never below 0.0.  Each block either leaves the
    accumulator alone or adds one positive constant to it, and in floating
    point too the accumulator, started at 0.0, never goes down from one
    block to the next. *)
Theorem score_nonnegative age bmi bp cholesterol glucose smoking :
  fle 0.0 (score_of (calculate_risk age bmi bp cholesterol glucose smoking)) = true
  /\ (exists b p c g a s,
        chooses (bmi_assessment bmi) bmi_effects b
        /\ chooses (bp_assessment bp) bp_effects p
        /\ chooses (cholesterol_assessment cholesterol) cholesterol_effects c
        /\ chooses (glucose_assessment glucose) glucose_effects g
        /\ chooses (age_factor age) age_effects a
        /\ chooses (smoking_factor smoking) smoking_effects s
        /\ forallb adds_positive [b; p; c; g; a; s] = true)
  /\ nondecreasing (accumulators age bmi bp cholesterol glucose smoking) = true.
Proof.
  split; [apply (score_satisfies (fle 0.0)), all_totals_nonnegative|].
  destruct (bmi_assessment_effect bmi) as (b & Hb).
  destruct (bp_assessment_effect bp) as (p & Hp).
  destruct (cholesterol_assessment_effect cholesterol) as (c & Hc).
  destruct (glucose_assessment_effect glucose) as (g & Hg).
  destruct (age_factor_effect age) as (a & Ha).
  destruct (smoking_factor_effect smoking) as (s & Hs).
  split.
  - exists b, p, c, g, a, s. repeat (split; [assumption|]).
    cbn [forallb].
    assert (Hblocks : forall es, In es blocks ->
              forall block e, chooses block es e -> adds_positive e = true)
      by (intros; eapply chosen_adds_positive; eassumption).
    rewrite (Hblocks bmi_effects ltac:(simpl; tauto) _ _ Hb),
      (Hblocks bp_effects ltac:(simpl; tauto) _ _ Hp),
      (Hblocks cholesterol_effects ltac:(simpl; tauto) _ _ Hc),
      (Hblocks glucose_effects ltac:(simpl; tauto) _ _ Hg),
      (Hblocks age_effects ltac:(simpl; tauto) _ _ Ha),
      (Hblocks smoking_effects ltac:(simpl; tauto) _ _ Hs).
    reflexivity.
  - rewrite (accumulators_chosen _ _ _ _ _ _ _ _ _ _ _ _ Hb Hp Hc Hg Ha Hs).
    pose proof all_partial_sums_nondecreasing as H.
    rewrite forallb_forall in H. apply H, in_product.
    unfold chooses in *. unfold blocks.
    repeat (apply Forall2_cons; [tauto|]). apply Forall2_nil.
Qed.

(** C10. The score has a hard ceiling: whatever the input, in or out of
    the declared ranges, it is at most 16.2, which is the sum of the
    largest penalties 3.5 + 4.0 + 2.5 + 3.0 + 1.2 + 2.0 of the six blocks
    and is reached. *)
Theorem score_at_most_16_2 :
  (forall age bmi bp cholesterol glucose smoking,
      fle (score_of (calculate_risk age bmi bp cholesterol glucose smoking)) 16.2
      = true)
  /\ fold_left PrimFloat.add max_penalties 0.0 = 16.2
  /\ map (fun es => fold_right (fun e m => if fle m (bump (fst e) 0.0)
                                           then bump (fst e) 0.0 else m) 0.0 es)
         blocks = max_penalties
  /\ score_of (calculate_risk 65 38.0 190 260 135 "Current smoker") = 16.2.
Proof.
  split; [|repeat split].
  intros. apply (score_satisfies (fun s => fle s 16.2)), all_totals_bounded.
Qed.

End Bounds.

Section Categories.

(** C9. The display category and the scoring block cut the systolic axis
    at the same five points 90, 120, 130, 140 and 180: for every value,
    [calculate_bp_category] returns the label of the value's bucket and
    the blood-pressure block of [calculate_risk] takes the branch of that
    same bucket, so two values share a label exactly when they share a
    scoring branch. *)
Theorem bp_category_matches_scoring :
  (forall bp,
      calculate_bp_category bp = nth (bp_bucket bp) bp_labels ""
      /\ forall st, bp_assessment bp st
                    = apply_effect (nth (bp_bucket bp) bp_effects (None, [])) st)
  /\ (forall bp bp',
        calculate_bp_category bp = calculate_bp_category bp'
        <-> bp_bucket bp = bp_bucket bp')
  /\ (forall bp bp',
        (forall st, bp_assessment bp st = bp_assessment bp' st)
        <-> bp_bucket bp = bp_bucket bp').
Proof.
  assert (Hrow : forall bp,
      calculate_bp_category bp = nth (bp_bucket bp) bp_labels ""
      /\ forall st, bp_assessment bp st
                    = apply_effect (nth (bp_bucket bp) bp_effects (None, [])) st).
  { intros bp. unfold calculate_bp_category, bp_assessment, bp_bucket,
      bp_cut_points. cbn [filter].
    destruct (Z.ltb_spec bp 90), (Z.leb_spec 90 bp); try lia;
    destruct (Z.ltb_spec bp 120), (Z.leb_spec 120 bp); try lia;
    destruct (Z.ltb_spec bp 130), (Z.leb_spec 130 bp); try lia;
    destruct (Z.ltb_spec bp 140), (Z.leb_spec 140 bp); try lia;
    destruct (Z.ltb_spec bp 180), (Z.leb_spec 180 bp); try lia;
    split; reflexivity. }
  assert (Hlt : forall bp, (bp_bucket bp < 6)%nat).
  { intros bp. unfold bp_bucket, bp_cut_points. cbn [filter].
    repeat match goal with
           | |- context [if ?c then _ else _] => destruct c
           end; simpl; lia. }
  split; [exact Hrow|]. split; intros bp bp'.
  - destruct (Hrow bp) as [-> _], (Hrow bp') as [-> _].
    split; [|now intros ->].
    pose proof (Hlt bp); pose proof (Hlt bp').
    destruct (bp_bucket bp) as [|[|[|[|[|[|?]]]]]]; try lia;
    destruct (bp_bucket bp') as [|[|[|[|[|[|?]]]]]]; try lia;
    simpl; intros E; try reflexivity; discriminate E.
  - split.
    + intros E. specialize (E (Locals 0.0 [])).
      rewrite (proj2 (Hrow bp)), (proj2 (Hrow bp')) in E.
      pose proof (Hlt bp); pose proof (Hlt bp').
      destruct (bp_bucket bp) as [|[|[|[|[|[|?]]]]]]; try lia;
      destruct (bp_bucket bp') as [|[|[|[|[|[|?]]]]]]; try lia;
      try reflexivity; discriminate E.
    + intros E st. rewrite (proj2 (Hrow bp)), (proj2 (Hrow bp')).
      now rewrite E.
Qed.

End Categories.

(** * Main results on [generate_pdf] *)

Section RecommendationCount.

Lemma all_choices_advise_5_or_6 :
  forallb (fun es => let n := List.length (List.concat (map snd es)) in
                     (5 <=? n)%nat && (n <=? 6)%nat)
          (product blocks) = true.
Proof. vm_compute. reflexivity. Qed.

(** The list has ten elements, or eleven when the age is 45 or more. *)
Lemma recommendations_10_or_11 age bmi bp cholesterol glucose smoking :
  (10 <= List.length (recs_of (calculate_risk age bmi bp cholesterol glucose smoking))
   <= 11)%nat.
Proof.
  rewrite recs_of_calculate_risk.
  destruct (assess_effects age bmi bp cholesterol glucose smoking)
    as (b & p & c & g & a & s & Hin & ->).
  cbn [recommendations].
  pose proof (all_choices_sound _ b p c g a s all_choices_advise_5_or_6) as H.
  cbv beta zeta in H. cbn [map List.concat] in H. rewrite app_nil_r in H.
  rewrite !length_app in *. cbn [general List.length].
  destruct Hin as (Hb & Hp & Hc & Hg & Ha & Hs).
  specialize (H Hb Hp Hc Hg Ha Hs).
  apply andb_true_iff in H as [Hlo Hhi].
  apply Nat.leb_le in Hlo, Hhi. lia.
Qed.

Lemma length_enumerate {A : Type} (l : list A) start :
  List.length (enumerate l start) = List.length l.
Proof.
  revert start. induction l as [|x l IH]; intros start; simpl; [reflexivity|].
  now rewrite IH.
Qed.

Lemma stand_in_loop (items : list (Z * string)) body log :
  (forall it l,
      body it (None, l)
      = inr (tt, (None, (l ++ [RMultiCell 0 6 (numbered it); RLn 2])%list))) ->
  for_each (stand_in None) items body (None, log)
  = inr (tt, (None, (log ++ flat_map (fun it => [RMultiCell 0 6 (numbered it); RLn 2])
                                     items)%list)).
Proof.
  intros Hbody. revert log. induction items as [|it items IH]; intros log.
  - simpl. unfold ret. now rewrite app_nil_r.
  - cbn [for_each flat_map]. unfold bind at 1. rewrite Hbody, IH.
    now rewrite <- app_assoc.
Qed.

Lemma multi_cell_texts_loop (items : list (Z * string)) :
  multi_cell_texts (flat_map (fun it => [RMultiCell 0 6 (numbered it); RLn 2]) items)
  = map numbered items.
Proof.
  induction items as [|it items IH]; [reflexivity|].
  cbn [flat_map map]. unfold multi_cell_texts in *.
  rewrite flat_map_app, IH. reflexivity.
Qed.

(** What the stand-in records: the ten-at-most numbered lines, then the
    disclaimer, are all the [multi_cell] calls of a run. *)
Lemma stand_in_numbered_lines risk score age bmi bp cholesterol glucose recs :
  exists doc log,
    try_block (stand_in None) risk score age bmi bp cholesterol glucose recs
    = inr (doc, (None, log))
    /\ multi_cell_texts log
       = (map numbered (enumerate (firstn 10 recs) 1) ++ [disclaimer])%list.
Proof.
  assert (Hbody : forall (it : Z * string) l,
    (fun '(i, rec) =>
       bind (stand_in None)
         (multi_cell (stand_in None) 0 6 (str_of_int i ++ ". " ++ rec))
         (fun _ => ln (stand_in None) 2)) it (None, l)
    = inr (tt, (None, (l ++ [RMultiCell 0 6 (numbered it); RLn 2])%list))).
  { intros [i r] l. cbn. now rewrite <- app_assoc. }
  unfold try_block, render.
  destruct (contains "High" risk); [|destruct (contains "Moderate" risk)];
    cbn -[firstn]; unfold bind at 1;
    rewrite (stand_in_loop _ _ _ Hbody); cbn -[firstn];
    do 2 eexists; (split; [reflexivity|]);
    unfold multi_cell_texts; cbn [flat_map app];
    rewrite !flat_map_app; cbn [flat_map app]; rewrite !app_nil_r;
    f_equal; apply multi_cell_texts_loop.
Qed.

(** C6. The list [calculate_risk] returns has at least 6 elements, and
    the report lists only the first 10 recommendations, numbered from 1:
    [generate_pdf] gives the same result on a list and on its first ten
    elements, and the numbered lines it writes are those of the first ten
    elements, at most ten of them. *)
Theorem recommendation_count_and_report_limit :
  (forall age bmi bp cholesterol glucose smoking,
      (6 <= List.length
              (recs_of (calculate_risk age bmi bp cholesterol glucose smoking)))%nat)
  /\ (forall E risk score age bmi bp cholesterol glucose recs,
        generate_pdf E risk score age bmi bp cholesterol glucose recs
        = generate_pdf E risk score age bmi bp cholesterol glucose (firstn 10 recs))
  /\ (forall risk score age bmi bp cholesterol glucose recs,
        exists doc log,
          try_block (stand_in None) risk score age bmi bp cholesterol glucose recs
          = inr (doc, (None, log))
          /\ multi_cell_texts log
             = (map numbered (enumerate (firstn 10 recs) 1) ++ [disclaimer])%list
          /\ List.length (map numbered (enumerate (firstn 10 recs) 1))
             = Nat.min 10 (List.length recs)).
Proof.
  split; [|split].
  - intros. pose proof (recommendations_10_or_11 age bmi bp cholesterol glucose
                          smoking). lia.
  - intros. unfold generate_pdf, try_block, render.
    now rewrite firstn_firstn.
  - intros.
    destruct (stand_in_numbered_lines risk score age bmi bp cholesterol glucose recs)
      as (doc & log & Hrun & Htexts).
    exists doc, log. repeat split; [assumption..|].
    now rewrite length_map, length_enumerate, length_firstn.
Qed.

End RecommendationCount.



Section ReportFacts.

Example contains_examples :
  contains "High" "High Risk" = true
  /\ contains "High" "Moderate Risk" = false
  /\ contains "Moderate" "Low-Moderate Risk" = true
  /\ contains "Moderate" "Low Risk" = false.
Proof. repeat split. Qed.

Example str_of_int_examples :
  str_of_int 65 = "65" /\ str_of_int 0 = "0" /\ str_of_int (-3) = "-3".
Proof. repeat split. Qed.

Example enumerate_example :
  enumerate ["a"; "b"; "c"] 1 = [(1, "a"); (2, "b"); (3, "c")]%Z.
Proof. reflexivity. Qed.

Lemma bind_inr (E : environment) (A B : Type) (m : M E A) (k : A -> M E B) p r :
  bind E m k p = inr r ->
  exists a p', m p = inr (a, p') /\ k a p' = inr r.
Proof.
  unfold bind. destruct (m p) as [e | [a p']]; [discriminate|].
  intros H. now exists a, p'.
Qed.

Lemma render_ends_with_output E risk score age bmi bp cholesterol glucose recs p doc p' :
  render E risk score age bmi bp cholesterol glucose recs p = inr (doc, p') ->
  exists p0 s, output E "S" p0 = inr (s, p') /\ encode E s "latin-1" = inr doc.
Proof.
  unfold render. cbv zeta. intros H.
  repeat (apply bind_inr in H; destruct H as (? & ? & ? & H)).
  destruct (encode E _ _) eqn:Henc; [discriminate|].
  injection H as <- <-. eauto.
Qed.

End ReportFacts.

Section AllOrNothing.

Lemma stand_in_serialises_nonempty budget : serialises_nonempty (stand_in budget).
Proof.
  intros dest [b log] s p' bytes Hout Henc. cbn in Hout, Henc.
  destruct b as [[|n]|]; [discriminate| |];
    injection Hout as <- _; injection Henc as <-; discriminate.
Qed.














(** The fault path, forced: on the report of the second worked example
    the stand-in makes 94 library calls; a fault at any one of them gives
    the empty result, and none gives the document. *)
Example forced_faults_give_nothing :
  let report budget :=
    generate_pdf (stand_in budget) "High Risk" 16.2 65 38.0 190 260 135
      (recs_of (calculate_risk 65 38.0 190 260 135 "Current smoker")) in
  forallb (fun n => match report (Some n) with
                    | ([], [msg]) => String.eqb msg "Error generating PDF: fault"
                    | _ => false
                    end) (seq 0 94) = true
  /\ report (Some 94%nat) = (list_byte_of_string "%PDF-1.3", [])
  /\ report None = (list_byte_of_string "%PDF-1.3", []).
Proof. vm_compute. repeat split. Qed.

End AllOrNothing.

(** * Further properties: categorizers, interpretation, the risk page *)

Section FloatOrder.

Local Ltac order_cases :=
  repeat match goal with
         | s : bool |- _ => destruct s
         end; simpl in *; try discriminate; try reflexivity;
  repeat match goal with
         | H : context [Z.compare ?a ?b] |- _ => destruct (Z.compare_spec a b)
         | |- context [Z.compare ?a ?b] => destruct (Z.compare_spec a b)
         end; simpl in *; try discriminate; try reflexivity; try lia;
  subst;
  repeat match goal with
         | H : context [Pos.compare_cont Eq ?a ?b] |- _ =>
             change (Pos.compare_cont Eq a b) with (Pos.compare a b) in *;
             destruct (Pos.compare_spec a b)
         | |- context [Pos.compare_cont Eq ?a ?b] =>
             change (Pos.compare_cont Eq a b) with (Pos.compare a b) in *;
             destruct (Pos.compare_spec a b)
         end; simpl in *; try discriminate; try reflexivity; try lia.

Lemma SFleb_SFltb_trans x y z :
  SFleb x y = true -> SFltb y z = true -> SFltb x z = true.
Proof.
  unfold SFleb, SFltb.
  destruct x as [sx|sx| |sx mx ex], y as [sy|sy| |sy my ey],
           z as [sz|sz| |sz mz ez];
    simpl; intros H1 H2; try discriminate; try reflexivity; order_cases.
Qed.

Lemma SFltb_trans x y z :
  SFltb x y = true -> SFltb y z = true -> SFltb x z = true.
Proof.
  unfold SFltb.
  destruct x as [sx|sx| |sx mx ex], y as [sy|sy| |sy my ey],
           z as [sz|sz| |sz mz ez];
    simpl; intros H1 H2; try discriminate; try reflexivity; order_cases.
Qed.

Lemma SFleb_not_SFltb x y : SFleb x y = true -> SFltb y x = false.
Proof.
  unfold SFleb, SFltb.
  destruct x as [sx|sx| |sx mx ex], y as [sy|sy| |sy my ey];
    simpl; intros H1; try discriminate; try reflexivity; order_cases.
Qed.

Lemma SFeqb_irrefl_nan x : SFeqb x x = false -> x = S754_nan.
Proof.
  unfold SFeqb.
  destruct x as [sx|sx| |sx mx ex]; simpl; intros H; try reflexivity;
    try discriminate; destruct sx; try discriminate;
    rewrite Z.compare_refl in H;
    change (Pos.compare_cont Eq mx mx) with (Pos.compare mx mx) in H;
    rewrite Pos.compare_refl in H; discriminate.
Qed.

Lemma fle_flt_trans x y z : fle x y = true -> flt y z = true -> flt x z = true.
Proof. unfold fle, flt. rewrite FloatAxioms.leb_spec, !FloatAxioms.ltb_spec. apply SFleb_SFltb_trans. Qed.

Lemma flt_trans x y z : flt x y = true -> flt y z = true -> flt x z = true.
Proof. unfold flt. rewrite !FloatAxioms.ltb_spec. apply SFltb_trans. Qed.

Lemma fle_not_flt x y : fle x y = true -> flt y x = false.
Proof. unfold fle, flt. rewrite FloatAxioms.leb_spec, FloatAxioms.ltb_spec. apply SFleb_not_SFltb. Qed.

(** Every comparison with NaN is false. *)
Lemma nan_compares_false x y :
  PrimFloat.is_nan x = true ->
  flt x y = false /\ fle x y = false /\ flt y x = false /\ fle y x = false.
Proof.
  unfold PrimFloat.is_nan, flt, fle. intros H.
  apply negb_true_iff in H. rewrite FloatAxioms.eqb_spec in H.
  apply SFeqb_irrefl_nan in H.
  rewrite !FloatAxioms.ltb_spec, !FloatAxioms.leb_spec, H.
  unfold SFltb, SFleb. repeat split; destruct (Prim2SF y); reflexivity.
Qed.

End FloatOrder.

Section OtherCategorizers.

Local Ltac by_cut_points :=
  repeat match goal with
         | |- context [(?v <? ?t)%Z] => destruct (Z.ltb_spec v t)
         | |- context [(?t <=? ?v)%Z] => destruct (Z.leb_spec t v)
         end; try lia; try (split; reflexivity).

(** X1. The cholesterol label and the cholesterol block of the scorer
    cut the axis at the same two points, 200 and 240: for every value the
    label is the one of its bucket and the block takes the branch of that
    bucket. *)
Theorem cholesterol_category_matches_scoring cholesterol :
  calculate_cholesterol_category cholesterol
  = nth (bucket [200; 240]%Z cholesterol) cholesterol_labels ""
  /\ forall st,
       cholesterol_assessment cholesterol st
       = apply_effect (nth (bucket [200; 240]%Z cholesterol)
                           cholesterol_effects (None, [])) st.
Proof.
  unfold calculate_cholesterol_category, cholesterol_assessment, bucket.
  cbn [filter]. by_cut_points.
Qed.

(** X2. The glucose label and the glucose block of the scorer cut the
    axis at the same three points, 70, 100 and 126. *)
Theorem glucose_category_matches_scoring glucose :
  calculate_glucose_category glucose
  = nth (bucket [70; 100; 126]%Z glucose) glucose_labels ""
  /\ forall st,
       glucose_assessment glucose st
       = apply_effect (nth (bucket [70; 100; 126]%Z glucose)
                           glucose_effects (None, [])) st.
Proof.
  unfold calculate_glucose_category, glucose_assessment, bucket.
  cbn [filter]. by_cut_points.
Qed.

(** X3. The BMI label determines the branch of the BMI block: the first
    four labels go with the first four branches, and the two labels
    Obese (Class II) and Obese (Class III) both go with the last branch,
    which adds 3.5 with the severe-obesity advice. *)
Theorem bmi_category_determines_scoring bmi :
  exists e,
    In (calculate_bmi_category bmi, e) bmi_label_effects
    /\ forall st, bmi_assessment bmi st = apply_effect e st.
Proof.
  unfold calculate_bmi_category, bmi_assessment, bmi_label_effects.
  destruct (flt bmi 18.5); [eexists; split; [do 0 right; left|]; reflexivity|].
  destruct (fle 18.5 bmi && flt bmi 25);
    [eexists; split; [do 1 right; left|]; reflexivity|].
  destruct (fle 25 bmi && flt bmi 30);
    [eexists; split; [do 2 right; left|]; reflexivity|].
  destruct (fle 30 bmi && flt bmi 35);
    [eexists; split; [do 3 right; left|]; reflexivity|].
  destruct (fle 35 bmi && flt bmi 40).
  - eexists; split; [do 4 right; left|]; reflexivity.
  - eexists; split; [do 5 right; left|]; reflexivity.
Qed.

(** X4. A BMI that is not a number falls through every comparison: it is
    scored as severe obesity (3.5 added), labelled Obese (Class III), and
    shown with the status Elevated. *)
Theorem bmi_nan_is_worst_case bmi :
  PrimFloat.is_nan bmi = true ->
  (forall st, bmi_assessment bmi st = add_and_append 3.5 Msg.bmi_severe st)
  /\ calculate_bmi_category bmi = "Obese (Class III)"
  /\ bmi_status bmi = "Elevated".
Proof.
  intros Hnan.
  assert (Hlt : forall y, flt bmi y = false)
    by (intros y; apply (nan_compares_false bmi y Hnan)).
  assert (Hle : forall y, fle bmi y = false)
    by (intros y; apply (nan_compares_false bmi y Hnan)).
  unfold bmi_assessment, calculate_bmi_category, bmi_status.
  rewrite !Hlt, Hle, !andb_false_r. repeat split.
Qed.

Lemma bmi_nan_is_worst_case_witness :
  PrimFloat.is_nan PrimFloat.nan = true
  /\ (forall st, bmi_assessment PrimFloat.nan st
                 = add_and_append 3.5 Msg.bmi_severe st)
  /\ calculate_bmi_category PrimFloat.nan = "Obese (Class III)"
  /\ bmi_status PrimFloat.nan = "Elevated".
Proof.
  split; [reflexivity|].
  exact (bmi_nan_is_worst_case PrimFloat.nan eq_refl).
Defined.

Lemma level_is_a_tier s :
  In (fst (risk_level_and_color s))
     ["High Risk"; "Moderate Risk"; "Low-Moderate Risk"; "Low Risk"].
Proof.
  unfold risk_level_and_color.
  destruct (fge s 7); [simpl; tauto|].
  destruct (fge s 4); [simpl; tauto|].
  destruct (fge s 2); simpl; tauto.
Qed.

(** X5. Every level [calculate_risk] returns is a key of the
    interpretation table: [get_risk_interpretation] never falls back to
    its default text on a computed level, and returns the text stored
    under that level. *)
Theorem interpretation_of_computed_level age bmi bp cholesterol glucose smoking :
  let level := level_of (calculate_risk age bmi bp cholesterol glucose smoking) in
  In (level, get_risk_interpretation level) interpretations
  /\ get_risk_interpretation level <> no_interpretation.
Proof.
  cbv zeta. rewrite level_of_calculate_risk.
  pose proof (level_is_a_tier
                (risk_score (assess age bmi bp cholesterol glucose smoking))) as H.
  destruct H as [<- | [<- | [<- | [<- | []]]]];
    (split; [cbn; tauto | discriminate]).
Qed.

End OtherCategorizers.

Section Advice.

Lemma age_factor_recommendations age st :
  recommendations (age_factor age st) = (recommendations st ++ age_advice age)%list.
Proof.
  unfold age_factor, age_advice.
  destruct (Z.ltb_spec age 30), (Z.leb_spec 30 age), (Z.ltb_spec age 45),
    (Z.leb_spec 45 age), (Z.ltb_spec age 60); try lia; cbn;
    now rewrite ?app_nil_r.
Qed.

Lemma general_recommendations_recommendations st :
  recommendations (general_recommendations st)
  = (recommendations st ++ general)%list.
Proof.
  unfold general_recommendations, rec_append, general. cbn.
  now rewrite <- !app_assoc.
Qed.

Lemma one_advice es e :
  In es [bmi_effects; bp_effects; cholesterol_effects; glucose_effects;
         smoking_effects] ->
  In e es -> exists m, snd e = [m] /\ In m (advice_of es).
Proof.
  intros Hes He. cbn in Hes.
  repeat destruct Hes as [<- | Hes]; try contradiction;
    cbn in He; repeat destruct He as [<- | He]; try contradiction;
    eexists; (split; [reflexivity|]); cbn; tauto.
Qed.

Lemma recommendations_of_assess age bmi bp cholesterol glucose smoking :
  exists mb mp mc mg ms,
    (In mb (advice_of bmi_effects) /\ In mp (advice_of bp_effects)
     /\ In mc (advice_of cholesterol_effects) /\ In mg (advice_of glucose_effects)
     /\ In ms (advice_of smoking_effects))
    /\ recommendations (assess age bmi bp cholesterol glucose smoking)
       = ([mb; mp; mc; mg] ++ age_advice age ++ [ms] ++ general)%list.
Proof.
  destruct (bmi_assessment_effect bmi) as (b & Hb & Eb).
  destruct (bp_assessment_effect bp) as (p & Hp & Ep).
  destruct (cholesterol_assessment_effect cholesterol) as (c & Hc & Ec).
  destruct (glucose_assessment_effect glucose) as (g & Hg & Eg).
  destruct (smoking_factor_effect smoking) as (s & Hs & Es).
  destruct (one_advice bmi_effects b) as (mb & Eb' & Hmb);
    [cbn; tauto | assumption |].
  destruct (one_advice bp_effects p) as (mp & Ep' & Hmp);
    [cbn; tauto | assumption |].
  destruct (one_advice cholesterol_effects c) as (mc & Ec' & Hmc);
    [cbn; tauto | assumption |].
  destruct (one_advice glucose_effects g) as (mg & Eg' & Hmg);
    [cbn; tauto | assumption |].
  destruct (one_advice smoking_effects s) as (ms & Es' & Hms);
    [cbn; tauto | assumption |].
  exists mb, mp, mc, mg, ms. split; [tauto|].
  unfold assess.
  rewrite general_recommendations_recommendations, Es.
  unfold apply_effect at 1. cbn [recommendations].
  rewrite age_factor_recommendations, Eg, Ec, Ep, Eb.
  unfold apply_effect. cbn [recommendations].
  rewrite Eb', Ep', Ec', Eg', Es'. cbn [app].
  now rewrite <- !app_assoc.
Qed.

(** X6. The recommendations come in the order of the blocks: one piece of
    advice on BMI, one on blood pressure, one on cholesterol, one on
    glucose, then the advice on age if the age is 45 or more (none below),
    one on smoking, and the five general lines. *)
Theorem recommendations_in_factor_order age bmi bp cholesterol glucose smoking :
  exists mb mp mc mg ms,
    (In mb (advice_of bmi_effects) /\ In mp (advice_of bp_effects)
     /\ In mc (advice_of cholesterol_effects) /\ In mg (advice_of glucose_effects)
     /\ In ms (advice_of smoking_effects))
    /\ recs_of (calculate_risk age bmi bp cholesterol glucose smoking)
       = ([mb; mp; mc; mg] ++ age_advice age ++ [ms] ++ general)%list.
Proof.
  rewrite recs_of_calculate_risk. apply recommendations_of_assess.
Qed.

(** X7. The page shows every recommendation, the report at most ten.
    Below 45 years the report lists exactly what the page shows; from 45
    on the page shows eleven lines and the report leaves out the last,
    the advice to schedule regular check-ups. *)
Theorem report_omits_checkups_from_45 age bmi bp cholesterol glucose smoking :
  let r := calculate_risk age bmi bp cholesterol glucose smoking in
  exists doc log printed,
    try_block (stand_in None) (level_of r) (score_of r) age bmi bp
              cholesterol glucose (recs_of r) = inr (doc, (None, log))
    /\ multi_cell_texts log = (printed ++ [disclaimer])%list
    /\ shown_recommendations (recs_of r)
       = (printed
          ++ if (age <? 45)%Z then []
             else ["11. Schedule regular check-ups with your healthcare provider."])%list.
Proof.
  cbv zeta.
  destruct (stand_in_numbered_lines
              (level_of (calculate_risk age bmi bp cholesterol glucose smoking))
              (score_of (calculate_risk age bmi bp cholesterol glucose smoking))
              age bmi bp cholesterol glucose
              (recs_of (calculate_risk age bmi bp cholesterol glucose smoking)))
    as (doc & log & Hrun & Htexts).
  exists doc, log. eexists. split; [exact Hrun|]. split; [exact Htexts|].
  rewrite recs_of_calculate_risk.
  destruct (recommendations_of_assess age bmi bp cholesterol glucose smoking)
    as (mb & mp & mc & mg & ms & _ & ->).
  unfold shown_recommendations, age_advice, general.
  destruct (age <? 45)%Z; [now rewrite app_nil_r|].
  destruct (age <? 60)%Z; reflexivity.
Qed.

End Advice.

Section ExactDecimals.

Local Tactic Notation "branch" integer(n) :=
  eexists; split; [split; [do n right; left; reflexivity | reflexivity]
                  | reflexivity].

Lemma bmi_tenths_effect bmi :
  exists e, chooses (bmi_assessment bmi) bmi_effects e
            /\ bmi_tenths bmi = effect_tenths e.
Proof.
  unfold bmi_assessment, bmi_tenths.
  destruct (flt bmi 18.5); [branch 0|].
  destruct (fle 18.5 bmi && flt bmi 25); [branch 1|].
  destruct (fle 25 bmi && flt bmi 30); [branch 2|].
  destruct (fle 30 bmi && flt bmi 35); [branch 3|].
  branch 4.
Qed.

Lemma bp_tenths_effect bp :
  exists e, chooses (bp_assessment bp) bp_effects e
            /\ bp_tenths bp = effect_tenths e.
Proof.
  unfold bp_assessment, bp_tenths.
  destruct (bp <? 90)%Z; [branch 0|].
  destruct ((90 <=? bp)%Z && (bp <? 120)%Z); [branch 1|].
  destruct ((120 <=? bp)%Z && (bp <? 130)%Z); [branch 2|].
  destruct ((130 <=? bp)%Z && (bp <? 140)%Z); [branch 3|].
  destruct ((140 <=? bp)%Z && (bp <? 180)%Z); [branch 4|].
  branch 5.
Qed.

Lemma cholesterol_tenths_effect c :
  exists e, chooses (cholesterol_assessment c) cholesterol_effects e
            /\ cholesterol_tenths c = effect_tenths e.
Proof.
  unfold cholesterol_assessment, cholesterol_tenths.
  destruct (c <? 200)%Z; [branch 0|].
  destruct ((200 <=? c)%Z && (c <? 240)%Z); [branch 1|].
  branch 2.
Qed.

Lemma glucose_tenths_effect g :
  exists e, chooses (glucose_assessment g) glucose_effects e
            /\ glucose_tenths g = effect_tenths e.
Proof.
  unfold glucose_assessment, glucose_tenths.
  destruct (g <? 70)%Z; [branch 0|].
  destruct ((70 <=? g)%Z && (g <? 100)%Z); [branch 1|].
  destruct ((100 <=? g)%Z && (g <? 126)%Z); [branch 2|].
  branch 3.
Qed.

Lemma age_tenths_effect a :
  exists e, chooses (age_factor a) age_effects e
            /\ age_tenths a = effect_tenths e.
Proof.
  unfold age_factor, age_tenths.
  destruct (a <? 30)%Z.
  { eexists; split; [split; [do 0 right; left; reflexivity|]|reflexivity].
    intros st. now rewrite apply_effect_id. }
  destruct ((30 <=? a)%Z && (a <? 45)%Z).
  { eexists; split; [split; [do 1 right; left; reflexivity|]|reflexivity].
    intros [s r]. unfold apply_effect, add; simpl. now rewrite app_nil_r. }
  destruct ((45 <=? a)%Z && (a <? 60)%Z); [branch 2|].
  branch 3.
Qed.

Lemma smoking_tenths_effect s :
  exists e, chooses (smoking_factor s) smoking_effects e
            /\ smoking_tenths s = effect_tenths e.
Proof.
  unfold smoking_factor, smoking_tenths.
  destruct (String.eqb s "Current smoker"); [branch 0|].
  destruct (String.eqb s "Former smoker"); [branch 1|].
  branch 2.
Qed.

Lemma all_choices_exact :
  forallb (fun es =>
             let t := fold_right Z.add 0%Z (map effect_tenths es) in
             PrimFloat.Leibniz.eqb (total es) (float_of_tenths t)
             && String.eqb (fst (risk_level_and_color (total es)))
                           (level_of_tenths t)
             && ((0 <=? t)%Z && (t <=? 162)%Z))
          (product blocks) = true.
Proof. vm_compute. reflexivity. Qed.

(** X8. Binary floating point does not distort the result.  With the
    penalties of the source read as exact decimals and added exactly, in
    tenths, the sum [t] is between 0 and 162; the score returned is the
    float [t / 10], and the level returned is the one the thresholds 7, 4
    and 2 give on the exact sum. *)
Theorem score_is_the_exact_decimal_sum age bmi bp cholesterol glucose smoking :
  let r := calculate_risk age bmi bp cholesterol glucose smoking in
  let t := score_tenths age bmi bp cholesterol glucose smoking in
  score_of r = float_of_tenths t
  /\ level_of r = level_of_tenths t
  /\ (0 <= t <= 162)%Z.
Proof.
  cbv zeta. rewrite score_of_calculate_risk, level_of_calculate_risk.
  destruct (bmi_tenths_effect bmi) as (b & Hb & Tb).
  destruct (bp_tenths_effect bp) as (p & Hp & Tp).
  destruct (cholesterol_tenths_effect cholesterol) as (c & Hc & Tc).
  destruct (glucose_tenths_effect glucose) as (g & Hg & Tg).
  destruct (age_tenths_effect age) as (a & Ha & Ta).
  destruct (smoking_tenths_effect smoking) as (s & Hs & Ts).
  rewrite (assess_chosen _ _ _ _ _ _ _ _ _ _ _ _ Hb Hp Hc Hg Ha Hs).
  cbn [risk_score].
  pose proof (all_choices_sound _ b p c g a s all_choices_exact
                (proj1 Hb) (proj1 Hp) (proj1 Hc) (proj1 Hg) (proj1 Ha) (proj1 Hs))
    as H.
  cbv beta zeta in H. cbn [map fold_right] in H.
  replace (effect_tenths b + (effect_tenths p + (effect_tenths c
            + (effect_tenths g + (effect_tenths a + (effect_tenths s + 0))))))%Z
    with (score_tenths age bmi bp cholesterol glucose smoking) in H
    by (unfold score_tenths; lia).
  apply andb_true_iff in H as [H Hrange].
  apply andb_true_iff in H as [Hscore Hlevel].
  apply andb_true_iff in Hrange as [Hlo Hhi].
  apply FloatAxioms.Leibniz.eqb_spec in Hscore. apply String.eqb_eq in Hlevel.
  apply Z.leb_le in Hlo, Hhi. tauto.
Qed.

End ExactDecimals.

Section OneFactor.

Lemma all_choices_one_factor :
  forallb (fun es =>
             implb (penalised (map (fun e => bump (fst e) 0.0) es) <=? 1)%nat
                   (fle (total es) 4.0
                    && negb (String.eqb (fst (risk_level_and_color (total es)))
                                        "High Risk")))
          (product blocks) = true.
Proof. vm_compute. reflexivity. Qed.

Lemma all_choices_crisis_alone :
  forallb (fun es =>
             implb ((penalised (map (fun e => bump (fst e) 0.0) es) <=? 1)%nat
                    && PrimFloat.Leibniz.eqb
                         (bump (fst (nth 1 es (None, []))) 0.0) 4.0)
                   (PrimFloat.Leibniz.eqb (total es) 4.0
                    && String.eqb (fst (risk_level_and_color (total es)))
                                  "Moderate Risk"))
          (product blocks) = true.
Proof. vm_compute. reflexivity. Qed.

Lemma crisis_penalty bp :
  (180 <= bp)%Z -> penalty_of (bp_assessment bp) = 4.0.
Proof.
  intros Hbp. unfold penalty_of, bp_assessment.
  destruct (Z.ltb_spec bp 90); [lia|].
  destruct (Z.ltb_spec bp 120); [lia|]. rewrite andb_false_r.
  destruct (Z.ltb_spec bp 130); [lia|]. rewrite andb_false_r.
  destruct (Z.ltb_spec bp 140); [lia|]. rewrite andb_false_r.
  destruct (Z.ltb_spec bp 180); [lia|]. rewrite andb_false_r.
  reflexivity.
Qed.

(** X9. One factor alone never gives High Risk.  When at most one of the
    six buckets of an input carries a penalty, the score is at most 4.0
    and the level is not High Risk, whatever that one factor is; and
    when that factor is a systolic pressure of 180 or more, the score is
    4.0 and the level is Moderate Risk. *)
Theorem one_factor_alone_is_never_high x :
  (penalised (penalties x) <= 1)%nat ->
  fle (score_of (run x)) 4.0 = true
  /\ level_of (run x) <> "High Risk"
  /\ ((180 <= in_bp x)%Z ->
      score_of (run x) = 4.0 /\ level_of (run x) = "Moderate Risk").
Proof.
  destruct x as [age bmi bp cholesterol glucose smoking].
  unfold run, penalties.
  cbn [in_age in_bmi in_bp in_cholesterol in_glucose in_smoking].
  rewrite score_of_calculate_risk, level_of_calculate_risk.
  destruct (bmi_assessment_effect bmi) as (b & Hb).
  destruct (bp_assessment_effect bp) as (p & Hp).
  destruct (cholesterol_assessment_effect cholesterol) as (c & Hc).
  destruct (glucose_assessment_effect glucose) as (g & Hg).
  destruct (age_factor_effect age) as (a & Ha).
  destruct (smoking_factor_effect smoking) as (s & Hs).
  rewrite (assess_chosen _ _ _ _ _ _ _ _ _ _ _ _ Hb Hp Hc Hg Ha Hs).
  pose proof (crisis_penalty bp) as Hcrisis.
  rewrite (penalty_chosen _ _ _ Hb), (penalty_chosen _ _ _ Hp),
    (penalty_chosen _ _ _ Hc), (penalty_chosen _ _ _ Hg),
    (penalty_chosen _ _ _ Ha), (penalty_chosen _ _ _ Hs) in *.
  cbn [risk_score]. intros Hone.
  pose proof (all_choices_sound _ b p c g a s all_choices_one_factor
                (proj1 Hb) (proj1 Hp) (proj1 Hc) (proj1 Hg) (proj1 Ha) (proj1 Hs))
    as H.
  pose proof (all_choices_sound _ b p c g a s all_choices_crisis_alone
                (proj1 Hb) (proj1 Hp) (proj1 Hc) (proj1 Hg) (proj1 Ha) (proj1 Hs))
    as H'.
  cbv beta in H, H'. cbn [map nth] in H, H'.
  apply Nat.leb_le in Hone. rewrite Hone in H, H'. cbn [implb andb] in H, H'.
  apply andb_true_iff in H as [Hscore Hlevel]. split; [assumption|].
  apply negb_true_iff, String.eqb_neq in Hlevel. split; [assumption|].
  intros Hbp. rewrite (Hcrisis Hbp) in H'.
  change (PrimFloat.Leibniz.eqb 4.0 4.0) with true in H'. cbn [implb] in H'.
  apply andb_true_iff in H' as [Hfour Hmod].
  apply FloatAxioms.Leibniz.eqb_spec in Hfour. apply String.eqb_eq in Hmod.
  now split.
Qed.

Lemma one_factor_alone_is_never_high_witness :
  (penalised (penalties (RiskInput 25 22.0 250 180 85 "Non-smoker")) <= 1)%nat
  /\ (180 <= in_bp (RiskInput 25 22.0 250 180 85 "Non-smoker"))%Z
  /\ fle (score_of (run (RiskInput 25 22.0 250 180 85 "Non-smoker"))) 4.0 = true
  /\ level_of (run (RiskInput 25 22.0 250 180 85 "Non-smoker")) <> "High Risk"
  /\ score_of (run (RiskInput 25 22.0 250 180 85 "Non-smoker")) = 4.0
  /\ level_of (run (RiskInput 25 22.0 250 180 85 "Non-smoker")) = "Moderate Risk".
Proof.
  assert (H : (penalised (penalties (RiskInput 25 22.0 250 180 85 "Non-smoker"))
               <= 1)%nat) by (vm_compute; lia).
  assert (Hbp : (180 <= in_bp (RiskInput 25 22.0 250 180 85 "Non-smoker"))%Z)
    by (cbn; lia).
  split; [exact H|]. split; [exact Hbp|].
  destruct (one_factor_alone_is_never_high _ H) as (Hscore & Hlevel & Hcrisis).
  split; [exact Hscore|]. split; [exact Hlevel|]. exact (Hcrisis Hbp).
Defined.

End OneFactor.

Section RiskPage.

Lemma stand_in_item (it : Z * string) l :
  (fun '(i, rec) =>
     bind (stand_in None)
       (multi_cell (stand_in None) 0 6 (str_of_int i ++ ". " ++ rec))
       (fun _ => ln (stand_in None) 2)) it (None, l)
  = inr (tt, (None, (l ++ [RMultiCell 0 6 (numbered it); RLn 2])%list)).
Proof. destruct it as [i r]. cbn. now rewrite <- app_assoc. Qed.

(** The two calls that print the level, as the stand-in records them. *)
Lemma stand_in_level_line risk score age bmi bp cholesterol glucose recs :
  exists doc log,
    try_block (stand_in None) risk score age bmi bp cholesterol glucose recs
    = inr (doc, (None, log))
    /\ nth_error log 18
       = Some (if contains "High" risk then RSetTextColor 231 76 60
               else if contains "Moderate" risk then RSetTextColor 243 156 18
               else RSetTextColor 39 174 96)
    /\ nth_error log 19 = Some (RCell 0 8 risk 0 1 "").
Proof.
  unfold try_block, render.
  destruct (contains "High" risk); [|destruct (contains "Moderate" risk)];
    cbn -[firstn]; unfold bind at 1;
    rewrite (stand_in_loop _ _ _ stand_in_item); cbn -[firstn];
    do 2 eexists; (split; [reflexivity|]); split; reflexivity.
Qed.

(** X10. The report prints the level in the color [calculate_risk]
    returns for it, except Low-Moderate Risk: the report has three colors
    for the four levels and prints Low-Moderate Risk in the orange
    #F39C12 of Moderate Risk, not in its own #F9A825. *)
Theorem report_color_of_level age bmi bp cholesterol glucose smoking :
  let r := calculate_risk age bmi bp cholesterol glucose smoking in
  exists doc log red green blue,
    try_block (stand_in None) (level_of r) (score_of r) age bmi bp
              cholesterol glucose (recs_of r) = inr (doc, (None, log))
    /\ nth_error log 18 = Some (RSetTextColor red green blue)
    /\ nth_error log 19 = Some (RCell 0 8 (level_of r) 0 1 "")
    /\ hex_color red green blue
       = if String.eqb (level_of r) "Low-Moderate Risk" then "#F39C12"
         else color_of r.
Proof.
  cbv zeta.
  destruct (stand_in_level_line
              (level_of (calculate_risk age bmi bp cholesterol glucose smoking))
              (score_of (calculate_risk age bmi bp cholesterol glucose smoking))
              age bmi bp cholesterol glucose
              (recs_of (calculate_risk age bmi bp cholesterol glucose smoking)))
    as (doc & log & Hrun & Hcolor & Hcell).
  exists doc, log.
  rewrite level_of_calculate_risk, color_of_calculate_risk in *.
  unfold risk_level_and_color in *.
  destruct (fge _ 7); [|destruct (fge _ 4); [|destruct (fge _ 2)]];
    cbn in Hcolor; do 3 eexists;
    (split; [exact Hrun|]); (split; [exact Hcolor|]);
    (split; [exact Hcell|]); reflexivity.
Qed.

Lemma try_block_nonempty E risk score age bmi bp cholesterol glucose recs doc p :
  serialises_nonempty E ->
  try_block E risk score age bmi bp cholesterol glucose recs = inr (doc, p) ->
  doc <> [].
Proof.
  intros Hout Htry. unfold try_block in Htry.
  destruct (FPDF E) as [e | p0]; [discriminate|].
  apply render_ends_with_output in Htry as (p1 & s & Hs & Henc).
  eapply Hout; eassumption.
Qed.

(** X11. What the download block shows.  If the [try] block of
    [generate_pdf] raised, the page gets two error messages, the one of
    [generate_pdf] and then the caller's own, and no button.  If it did
    not, the page gets the button carrying exactly the document, under
    the name [health_risk_report_<date>.pdf], or one error message when
    the button itself raises. *)
Theorem download_block_outcomes E today button_raises
    risk score age bmi bp cholesterol glucose recs :
  serialises_nonempty E ->
  download_block E today button_raises risk score age bmi bp cholesterol
                 glucose recs
  = match try_block E risk score age bmi bp cholesterol glucose recs with
    | inl e => [ StError ("Error generating PDF: " ++ exn_str E e);
                 StError "Failed to generate PDF report." ]
    | inr (doc, _) =>
        match button_raises doc with
        | None => [ StDownloadButton doc ("health_risk_report_" ++ today ++ ".pdf")
                                     "application/pdf" ]
        | Some e => [ StError ("Error generating PDF: " ++ e) ]
        end
    end.
Proof.
  intros Hout. unfold download_block, generate_pdf.
  destruct (try_block E risk score age bmi bp cholesterol glucose recs)
    as [e | [doc p]] eqn:Htry; [reflexivity|].
  pose proof (try_block_nonempty _ _ _ _ _ _ _ _ _ _ _ Hout Htry) as Hdoc.
  destruct doc as [|byte doc]; [contradiction|]. reflexivity.
Qed.

Lemma download_block_outcomes_witness :
  serialises_nonempty (stand_in None)
  /\ download_block (stand_in None) "20250101" (fun _ => None)
                    "Low Risk" 0.0 25 22.0 110 180 85 [Msg.bmi_healthy]
     = [ StDownloadButton (list_byte_of_string "%PDF-1.3")
                          "health_risk_report_20250101.pdf" "application/pdf" ].
Proof.
  split; [apply stand_in_serialises_nonempty|].
  exact (download_block_outcomes (stand_in None) "20250101" (fun _ => None)
           "Low Risk" 0.0 25 22.0 110 180 85 [Msg.bmi_healthy]
           (stand_in_serialises_nonempty None)).
Defined.

(** X12. A BMI shown as Normal is never penalised: it is in the healthy
    bucket of the scorer and labelled Normal Weight. *)
Theorem normal_bmi_status_is_unpenalised bmi :
  bmi_status bmi = "Normal" ->
  (forall st, bmi_assessment bmi st = rec_append Msg.bmi_healthy st)
  /\ calculate_bmi_category bmi = "Normal Weight".
Proof.
  unfold bmi_status. intros H.
  destruct (fle 18.5 bmi && fle bmi 24.9) eqn:Hrange; [|discriminate].
  apply andb_true_iff in Hrange as [Hlo Hhi].
  assert (Hnot : flt bmi 18.5 = false) by now apply fle_not_flt.
  assert (Hlt : flt bmi 25 = true)
    by (apply (fle_flt_trans bmi 24.9 25); [assumption|reflexivity]).
  unfold bmi_assessment, calculate_bmi_category.
  rewrite Hnot, Hlo, Hlt. split; reflexivity.
Qed.

Lemma normal_bmi_status_is_unpenalised_witness :
  bmi_status 22.0 = "Normal"
  /\ (forall st, bmi_assessment 22.0 st = rec_append Msg.bmi_healthy st)
  /\ calculate_bmi_category 22.0 = "Normal Weight".
Proof.
  split; [reflexivity|].
  exact (normal_bmi_status_is_unpenalised 22.0 eq_refl).
Defined.

(** The converse fails between 24.9 and 25: shown as Elevated, scored as
    healthy. *)
Example bmi_status_gap :
  bmi_status 24.95 = "Elevated"
  /\ calculate_bmi_category 24.95 = "Normal Weight"
  /\ penalty_of (bmi_assessment 24.95) = 0.0.
Proof. repeat split. Qed.

(** X13. A low reading is shown as Normal and penalised all the same: a
    systolic pressure below 90 and a glucose below 70 both have the
    status Normal on the page, while the scorer adds 1.0 for each and
    the categorizers label both Low. *)
Theorem low_readings_are_shown_normal_but_penalised bp glucose :
  (bp < 90)%Z -> (glucose < 70)%Z ->
  (bp_status bp = "Normal" /\ gluc_status glucose = "Normal")
  /\ (calculate_bp_category bp = "Low" /\ calculate_glucose_category glucose = "Low")
  /\ (forall st, bp_assessment bp st = add_and_append 1.0 Msg.bp_low st)
  /\ (forall st, glucose_assessment glucose st = add_and_append 1.0 Msg.gluc_low st).
Proof.
  intros Hbp Hgluc.
  unfold bp_status, gluc_status, calculate_bp_category,
    calculate_glucose_category, bp_assessment, glucose_assessment.
  destruct (Z.ltb_spec bp 90); [|lia].
  destruct (Z.ltb_spec bp 120); [|lia].
  destruct (Z.ltb_spec glucose 70); [|lia].
  destruct (Z.ltb_spec glucose 100); [|lia].
  repeat split.
Qed.

Lemma low_readings_are_shown_normal_but_penalised_witness :
  (80 < 90)%Z /\ (60 < 70)%Z
  /\ (bp_status 80 = "Normal" /\ gluc_status 60 = "Normal")
  /\ (calculate_bp_category 80 = "Low" /\ calculate_glucose_category 60 = "Low")
  /\ (forall st, bp_assessment 80 st = add_and_append 1.0 Msg.bp_low st)
  /\ (forall st, glucose_assessment 60 st = add_and_append 1.0 Msg.gluc_low st).
Proof.
  split; [reflexivity|]. split; [reflexivity|].
  exact (low_readings_are_shown_normal_but_penalised 80 60 eq_refl eq_refl).
Defined.

(** X14. The cholesterol status on the page agrees with the scorer: it
    is Normal exactly when the label is Desirable, which is exactly when
    the cholesterol block adds no penalty. *)
Theorem cholesterol_status_agrees_with_scoring cholesterol :
  (chol_status cholesterol = "Normal"
   <-> calculate_cholesterol_category cholesterol = "Desirable")
  /\ (chol_status cholesterol = "Normal"
      <-> forall st, risk_score (cholesterol_assessment cholesterol st)
                     = risk_score st).
Proof.
  unfold chol_status, calculate_cholesterol_category, cholesterol_assessment.
  destruct (Z.ltb_spec cholesterol 200).
  - split; split; intros _; reflexivity.
  - destruct (Z.leb_spec 200 cholesterol); [|lia].
    destruct (Z.ltb_spec cholesterol 240); cbn [andb];
      (split; split; intros Hn; try discriminate Hn;
       specialize (Hn (Locals 0.0 [])); cbn in Hn;
       apply (f_equal (fun s => PrimFloat.eqb s 0.0)) in Hn;
       vm_compute in Hn; discriminate Hn).
Qed.

End RiskPage.

Section MonotoneFactors.

Lemma SFleb_trans x y z :
  SFleb x y = true -> SFleb y z = true -> SFleb x z = true.
Proof.
  unfold SFleb.
  destruct x as [sx|sx| |sx mx ex], y as [sy|sy| |sy my ey],
           z as [sz|sz| |sz mz ez];
    simpl; intros H1 H2; try discriminate; try reflexivity;
    repeat match goal with
           | s : bool |- _ => destruct s
           end; simpl in *; try discriminate; try reflexivity;
    repeat match goal with
           | H : context [Z.compare ?a ?b] |- _ => destruct (Z.compare_spec a b)
           | |- context [Z.compare ?a ?b] => destruct (Z.compare_spec a b)
           end; simpl in *; try discriminate; try reflexivity; try lia;
    subst;
    repeat match goal with
           | H : context [Pos.compare_cont Eq ?a ?b] |- _ =>
               change (Pos.compare_cont Eq a b) with (Pos.compare a b) in *;
               destruct (Pos.compare_spec a b)
           | |- context [Pos.compare_cont Eq ?a ?b] =>
               change (Pos.compare_cont Eq a b) with (Pos.compare a b) in *;
               destruct (Pos.compare_spec a b)
           end; simpl in *; try discriminate; try reflexivity; try lia.
Qed.

Lemma fle_trans x y z : fle x y = true -> fle y z = true -> fle x z = true.
Proof. unfold fle. rewrite !FloatAxioms.leb_spec. apply SFleb_trans. Qed.

Lemma not_lower_trans s1 s2 s3 :
  not_lower s1 s2 = true -> not_lower s2 s3 = true -> not_lower s1 s3 = true.
Proof.
  unfold not_lower. intros H12 H23.
  apply andb_true_iff in H12 as [Hs12 Ht12].
  apply andb_true_iff in H23 as [Hs23 Ht23].
  apply andb_true_iff. split; [eapply fle_trans; eassumption|].
  apply Nat.leb_le in Ht12, Ht23. apply Nat.leb_le. lia.
Qed.

Lemma age_penalty_monotone age age' :
  (age <= age')%Z ->
  fle (penalty_of (age_factor age)) (penalty_of (age_factor age')) = true.
Proof.
  intros Hle. unfold penalty_of, age_factor.
  destruct (Z.ltb_spec age 30), (Z.leb_spec 30 age), (Z.ltb_spec age 45),
    (Z.leb_spec 45 age), (Z.ltb_spec age 60); try lia;
  destruct (Z.ltb_spec age' 30), (Z.leb_spec 30 age'), (Z.ltb_spec age' 45),
    (Z.leb_spec 45 age'), (Z.ltb_spec age' 60); try lia; reflexivity.
Qed.

Lemma cholesterol_penalty_monotone c c' :
  (c <= c')%Z ->
  fle (penalty_of (cholesterol_assessment c))
      (penalty_of (cholesterol_assessment c')) = true.
Proof.
  intros Hle. unfold penalty_of, cholesterol_assessment.
  destruct (Z.ltb_spec c 200), (Z.leb_spec 200 c), (Z.ltb_spec c 240); try lia;
  destruct (Z.ltb_spec c' 200), (Z.leb_spec 200 c'), (Z.ltb_spec c' 240);
    try lia; reflexivity.
Qed.

(** X15. Age and cholesterol only ever count against the patient: with
    the other inputs fixed, a higher age and a higher cholesterol never
    give a lower score or a lower level.  BMI, blood pressure and
    glucose are not like that: for each of them there are inputs where a
    higher value, the rest fixed, gives a strictly lower score. *)
Theorem older_and_higher_cholesterol_never_lower :
  (forall age age' bmi bp cholesterol cholesterol' glucose smoking,
      (age <= age')%Z -> (cholesterol <= cholesterol')%Z ->
      let r := calculate_risk age bmi bp cholesterol glucose smoking in
      let r' := calculate_risk age' bmi bp cholesterol' glucose smoking in
      fle (score_of r) (score_of r') = true
      /\ (severity (level_of r) <= severity (level_of r'))%nat)
  /\ (exists age bmi bmi' bp cholesterol glucose smoking,
         flt bmi bmi' = true
         /\ flt (score_of (calculate_risk age bmi' bp cholesterol glucose smoking))
                (score_of (calculate_risk age bmi bp cholesterol glucose smoking))
            = true)
  /\ (exists age bmi bp bp' cholesterol glucose smoking,
         (bp < bp')%Z
         /\ flt (score_of (calculate_risk age bmi bp' cholesterol glucose smoking))
                (score_of (calculate_risk age bmi bp cholesterol glucose smoking))
            = true)
  /\ (exists age bmi bp cholesterol glucose glucose' smoking,
         (glucose < glucose')%Z
         /\ flt (score_of (calculate_risk age bmi bp cholesterol glucose' smoking))
                (score_of (calculate_risk age bmi bp cholesterol glucose smoking))
            = true).
Proof.
  split; [|split; [|split]].
  - intros age age' bmi bp cholesterol cholesterol' glucose smoking Hage Hchol.
    cbv zeta.
    apply (not_lower_run (RiskInput age bmi bp cholesterol glucose smoking)
                         (RiskInput age' bmi bp cholesterol' glucose smoking)).
    apply (not_lower_trans _
             (score_of (run (RiskInput age' bmi bp cholesterol glucose smoking)))).
    + apply raises_not_lower, raise_age. now apply age_penalty_monotone.
    + apply raises_not_lower, raise_cholesterol.
      now apply cholesterol_penalty_monotone.
  - exists 25%Z, 18.0, 22.0, 110%Z, 180%Z, 85%Z, "Non-smoker". now split.
  - exists 25%Z, 22.0, 80%Z, 110%Z, 180%Z, 85%Z, "Non-smoker". now split.
  - exists 25%Z, 22.0, 110%Z, 180%Z, 60%Z, 85%Z, "Non-smoker". now split.
Qed.

Lemma older_and_higher_cholesterol_never_lower_witness :
  (30 <= 65)%Z /\ (180 <= 250)%Z
  /\ fle (score_of (calculate_risk 30 25.0 120 180 100 "Non-smoker"))
         (score_of (calculate_risk 65 25.0 120 250 100 "Non-smoker")) = true
  /\ (severity (level_of (calculate_risk 30 25.0 120 180 100 "Non-smoker"))
      <= severity (level_of (calculate_risk 65 25.0 120 250 100 "Non-smoker")))%nat.
Proof.
  assert (Hage : (30 <= 65)%Z) by lia.
  assert (Hchol : (180 <= 250)%Z) by lia.
  split; [exact Hage|]. split; [exact Hchol|].
  exact (proj1 older_and_higher_cholesterol_never_lower 30%Z 65%Z 25.0 120%Z
           180%Z 250%Z 100%Z "Non-smoker" Hage Hchol).
Defined.

(** X16. [get_risk_interpretation] falls back to its default text
    exactly on the strings that are not, character for character, one of
    the four level names. *)
Theorem interpretation_default_on_unknown_level risk_level :
  get_risk_interpretation risk_level = no_interpretation
  <-> ~ In risk_level ["Low Risk"; "Low-Moderate Risk"; "Moderate Risk"; "High Risk"].
Proof.
  unfold get_risk_interpretation, dict_get, interpretations. cbn [find fst snd].
  destruct (String.eqb_spec "Low Risk" risk_level) as [<- | H1].
  { split; [discriminate | intros H; exfalso; apply H; cbn; tauto]. }
  destruct (String.eqb_spec "Low-Moderate Risk" risk_level) as [<- | H2].
  { split; [discriminate | intros H; exfalso; apply H; cbn; tauto]. }
  destruct (String.eqb_spec "Moderate Risk" risk_level) as [<- | H3].
  { split; [discriminate | intros H; exfalso; apply H; cbn; tauto]. }
  destruct (String.eqb_spec "High Risk" risk_level) as [<- | H4].
  { split; [discriminate | intros H; exfalso; apply H; cbn; tauto]. }
  split; [|reflexivity]. intros _ Hin. cbn in Hin. tauto.
Qed.

End MonotoneFactors.
